(** * django-deploy: the fabfile's workflows as traces of Fabric operations

    Shallow embedding of [fabfile.py].  Every Fabric operation the fabfile
    calls ([fab.run], [fab.local], [fab.get], [fab.prompt]) and every [print]
    is recorded as an event; what the remote host, the local shell and the
    operator answer is an oracle that may depend on everything that happened
    before.  The workflows are written in a small trace-and-exception monad
    and the properties are statements about the traces they produce. *)

From Stdlib Require Import ZArith List String Ascii Bool Lia.
Import ListNotations.
Local Open Scope list_scope.
Local Open Scope string_scope.

(** ** Python 2 byte-string operations used by the fabfile *)

Module PyStr.

(** [s.startswith(p)] *)
Definition startswith (s p : string) : bool := String.prefix p s.

(** [s.endswith(c)] for a one-character suffix *)
Fixpoint endswith_char (s : string) (c : ascii) : bool :=
  match s with
  | EmptyString => false
  | String a EmptyString => Ascii.eqb a c
  | String _ s' => endswith_char s' c
  end.

(** [s.find(sub)]: lowest index of an occurrence, or -1 *)
Fixpoint find (s sub : string) : Z :=
  if String.prefix sub s then 0%Z
  else match s with
       | EmptyString => (-1)%Z
       | String _ s' =>
           let r := find s' sub in
           if (r <? 0)%Z then (-1)%Z else (r + 1)%Z
       end.

(** [s.rfind(c)] for a one-character needle: highest index, or -1 *)
Fixpoint rfind_char (s : string) (c : ascii) : Z :=
  match s with
  | EmptyString => (-1)%Z
  | String a s' =>
      let r := rfind_char s' c in
      if (0 <=? r)%Z then (r + 1)%Z
      else if Ascii.eqb a c then 0%Z else (-1)%Z
  end.

(** [s[i:]] for a non-negative [i] *)
Fixpoint slice_from (i : nat) (s : string) : string :=
  match i, s with
  | O, _ => s
  | S _, EmptyString => EmptyString
  | S i', String _ s' => slice_from i' s'
  end.

(** [s.split(c, 1)]: a two-element list cut at the first [c], or [[s]] *)
Fixpoint split1 (s : string) (c : ascii) : list string :=
  match s with
  | EmptyString => [EmptyString]
  | String a s' =>
      if Ascii.eqb a c then [EmptyString; s']
      else match split1 s' c with
           | x :: rest => String a x :: rest
           | [] => []
           end
  end.

(** The characters [str.strip()] removes: space, \t, \n, \v, \f, \r. *)
Definition isspace (a : ascii) : bool :=
  let n := nat_of_ascii a in
  Nat.eqb n 32 || (Nat.leb 9 n && Nat.leb n 13).

Fixpoint lstrip (s : string) : string :=
  match s with
  | EmptyString => EmptyString
  | String a s' => if isspace a then lstrip s' else s
  end.

Fixpoint rstrip (s : string) : string :=
  match s with
  | EmptyString => EmptyString
  | String a s' =>
      match rstrip s' with
      | EmptyString => if isspace a then EmptyString else String a EmptyString
      | r => String a r
      end
  end.

(** [s.strip()] *)
Definition strip (s : string) : string := rstrip (lstrip s).

(** Truth value of a string: empty is false. *)
Definition truthy (s : string) : bool :=
  match s with EmptyString => false | _ => true end.

End PyStr.

(** ** [os.path] (posixpath) *)

Module OsPath.

(** One round of the loop of [posixpath.join]. *)
Definition join_step (path b : string) : string :=
  if PyStr.startswith b "/" then b
  else if (String.eqb path "" || PyStr.endswith_char path "/"%char)%bool
       then path ++ b
       else path ++ "/" ++ b.

(** [os.path.join(a, *p)] *)
Definition join (a : string) (p : list string) : string :=
  fold_left join_step p a.

(** [os.path.basename(p)]: [p[p.rfind('/') + 1:]] *)
Definition basename (p : string) : string :=
  PyStr.slice_from (Z.to_nat (PyStr.rfind_char p "/"%char + 1)) p.

End OsPath.

(** ** Events, exceptions and the oracle *)

(** What the fabfile does to the outside world.  A [fab.run] records the
    arguments of the [fab.cd] blocks that enclose it, outermost first. *)
Inductive Event : Type :=
| EvRun (cd : list string) (cmd : string)
| EvLocal (cmd : string)
| EvGet (remote_path local_path : string)
| EvPrompt (text default : string)
| EvPrint (msg : string).

(** The ways a task stops early. [OperationFailed] is Fabric itself giving up
    inside [run], [local] or [get]; [SystemExit] is the fabfile calling
    [abort]. *)
Inductive Exn : Type :=
| SystemExit (msg : string)
| OperationFailed
| AssertionError
| IndexError
| KeyError (key : string).

Inductive Outcome (A : Type) : Type :=
| Ok (a : A)
| Raise (e : Exn).
Arguments Ok {A} a.
Arguments Raise {A} e.

(** The string [fab.run] returns, with its [succeeded] attribute. *)
Record RunResult : Type := mkRunResult {
  succeeded : bool;
  output : string
}.

(** The outside world.  Every answer may depend on the history so far.
    [run_reply] is [None] when Fabric aborts the task instead of returning
    a result; [local_reply] and [get_reply] say whether the call returned;
    [prompt_input] is the line the operator types. *)
Record World : Type := mkWorld {
  run_reply    : list Event -> list string -> string -> option RunResult;
  local_reply  : list Event -> string -> bool;
  get_reply    : list Event -> string -> string -> bool;
  prompt_input : list Event -> string -> string
}.

(** ** The monad: [fab.cd] context and history in, outcome and new events out *)

Definition M (A : Type) : Type :=
  list string -> list Event -> Outcome A * list Event.

Definition ret {A} (a : A) : M A := fun _ _ => (Ok a, []).

Definition raise {A} (e : Exn) : M A := fun _ _ => (Raise e, []).

Definition bind {A B} (m : M A) (k : A -> M B) : M B :=
  fun cd h =>
    match m cd h with
    | (Ok a, e1) =>
        match k a cd (h ++ e1)%list with
        | (r, e2) => (r, (e1 ++ e2)%list)
        end
    | (Raise x, e1) => (Raise x, e1)
    end.

Notation "x <- m ;; k" := (bind m (fun x => k))
  (at level 61, m at next level, right associativity).
Notation "m ;; k" := (bind m (fun _ => k))
  (at level 61, right associativity).

(** [with fab.cd(path): body] *)
Definition fab_cd {A} (path : string) (body : M A) : M A :=
  fun cd h => body (cd ++ [path])%list h.

(** [print msg] *)
Definition print (msg : string) : M unit :=
  fun _ _ => (Ok tt, [EvPrint msg]).

(** [assert b] *)
Definition py_assert (b : bool) : M unit :=
  if b then ret tt else raise AssertionError.

(** [l[i]] *)
Definition py_index {A} (l : list A) (i : nat) : M A :=
  match nth_error l i with
  | Some a => ret a
  | None => raise IndexError
  end.

(** [fabric.utils.abort(msg)] *)
Definition abort {A} (msg : string) : M A := raise (SystemExit msg).

Section Fabric.

Variable w : World.

(** [fab.run(cmd)] *)
Definition fab_run (cmd : string) : M RunResult :=
  fun cd h =>
    match run_reply w h cd cmd with
    | Some r => (Ok r, [EvRun cd cmd])
    | None => (Raise OperationFailed, [EvRun cd cmd])
    end.

(** [fab.local(cmd)] *)
Definition fab_local (cmd : string) : M unit :=
  fun _ h =>
    if local_reply w h cmd then (Ok tt, [EvLocal cmd])
    else (Raise OperationFailed, [EvLocal cmd]).

(** [fab.get(remote_path, local_path)] *)
Definition fab_get (remote_path local_path : string) : M unit :=
  fun _ h =>
    if get_reply w h remote_path local_path
    then (Ok tt, [EvGet remote_path local_path])
    else (Raise OperationFailed, [EvGet remote_path local_path]).

(** [fab.prompt(text, default=default)]: the typed line, or the default
    when the line is empty *)
Definition fab_prompt (text default : string) : M string :=
  fun _ h =>
    let typed := prompt_input w h text in
    (Ok (if PyStr.truthy typed then typed else default),
     [EvPrompt text default]).

(** [_yes(question)] *)
Definition _yes (question : string) : M bool :=
  answer <- fab_prompt (question ++ " (y/n)") "n" ;;
  ret (String.eqb answer "y").

End Fabric.

(** ** [fabfile_conf.py] and the process environment *)

(** The strings [fabfile_conf.py] must define; [CACHE_CLEAR_MODELS] is
    either [None] or a string. *)
Record Conf : Type := mkConf {
  PROJECT_NAME : string;
  PROJECT_BASE_PATH : string;
  BACKUP_DIR : string;
  UPLOADS_DIR : string;
  SRC_DIR : string;
  CACHE_CLEAR_MODELS : option string
}.

(** What the fabfile reads from the process it runs in: the directory of
    the fabfile, [tempfile.gettempdir()] and [fab.env.hosts]. *)
Record Runtime : Type := mkRuntime {
  WHEREAMI : string;
  gettempdir : string;
  env_hosts : list string
}.

(** Truth value of [CACHE_CLEAR_MODELS]. *)
Definition conf_truthy (o : option string) : bool :=
  match o with
  | Some s => PyStr.truthy s
  | None => false
  end.

(** ['%s' % o] *)
Definition conf_str (o : option string) : string :=
  match o with
  | Some s => s
  | None => "None"
  end.

(** ** [class ProjectEnvironment] *)

Record ProjectEnvironment : Type := mkEnv {
  name : string;
  path : string
}.

Section Fabfile.

Variable c : Conf.
Variable w : World.
Variable rt : Runtime.

Definition projdir (self : ProjectEnvironment) : string :=
  OsPath.join (path self) [SRC_DIR c; PROJECT_NAME c].

Definition backupdir (self : ProjectEnvironment) : string :=
  OsPath.join (path self) [BACKUP_DIR c].

Definition pull_updates (self : ProjectEnvironment) : M unit :=
  fab_cd (OsPath.join (path self) [SRC_DIR c])
    (fab_run w "git pull" ;; ret tt).

Definition migrate_database (self : ProjectEnvironment) : M unit :=
  fab_cd (projdir self)
    (fab_run w "./manage.py migrate" ;; ret tt).

Definition reload_wsgi (self : ProjectEnvironment) : M unit :=
  fab_cd (OsPath.join (path self) [SRC_DIR c])
    (fab_run w "touch app.wsgi" ;; ret tt).

Definition clear_cache (self : ProjectEnvironment) : M unit :=
  if conf_truthy (CACHE_CLEAR_MODELS c) then
    print "Clearing cache" ;;
    fab_cd (projdir self)
      (fab_run w ("./manage.py cache_clear " ++ conf_str (CACHE_CLEAR_MODELS c)) ;;
       ret tt)
  else
    print "CACHE_CLEAR_MODELS is empty, not clearing cache".

Definition backup_uploads (self : ProjectEnvironment) : M string :=
  let uploads_dir := OsPath.join (projdir self) [UPLOADS_DIR c] in
  let uploads_backup_dir :=
    OsPath.join (backupdir self)
      [(PROJECT_NAME c ++ "_" ++ name self ++ "_uploads")%string] in
  fab_run w ("rdiff-backup " ++ uploads_dir ++ " " ++ uploads_backup_dir) ;;
  ret uploads_backup_dir.

(** The text [backup_database] looks for in the output of [db_backup]. *)
Definition backup_marker : string := "successfully backed up to:".

Definition backup_database (self : ProjectEnvironment) : M string :=
  fab_cd (projdir self)
    (let backup_file_prefix :=
       OsPath.join (backupdir self)
         [("db_backup_" ++ PROJECT_NAME c ++ "_" ++ name self)%string] in
     result <- fab_run w ("./manage.py db_backup " ++ backup_file_prefix) ;;
     py_assert (succeeded result &&
                (0 <? PyStr.find (output result) backup_marker)%Z) ;;
     piece <- py_index (PyStr.split1 (output result) ":"%char) 1 ;;
     ret (PyStr.strip piece)).

Definition load_database_from (self : ProjectEnvironment)
    (other_db_file : string) : M unit :=
  fab_cd (projdir self)
    (fab_run w ("./manage.py db_load --noinput " ++ other_db_file) ;; ret tt).

Definition clear_database (self : ProjectEnvironment) : M unit :=
  fab_cd (projdir self)
    (fab_run w "./manage.py db_clear --noinput" ;; ret tt).

Definition backup_data (self : ProjectEnvironment) : M (string * string) :=
  db_backup_file <- backup_database self ;;
  upload_backup_dir <- backup_uploads self ;;
  ret (db_backup_file, upload_backup_dir).

Definition reset_data_from (self other_env : ProjectEnvironment) : M unit :=
  yes <- _yes w ("Reset database '" ++ name self ++ "' content from '"
                 ++ name other_env ++ "'?") ;;
  if negb yes then
    print "Not resetting database content."
  else
    clear_cache self ;;
    db_file <- backup_database other_env ;;
    clear_database self ;;
    load_database_from self db_file ;;
    yes <- _yes w ("Copy media files from '" ++ name self ++ "' to '"
                   ++ name other_env ++ "'?") ;;
    if negb yes then
      print "Not copying media files."
    else
      fab_cd (projdir self)
        (let other_uploads_dir :=
           OsPath.join (projdir other_env) [UPLOADS_DIR c] in
         fab_run w ("mv " ++ UPLOADS_DIR c ++ " " ++ UPLOADS_DIR c ++ ".bak") ;;
         fab_run w ("cp -a " ++ other_uploads_dir ++ " " ++ UPLOADS_DIR c) ;;
         fab_run w ("rm -r " ++ UPLOADS_DIR c ++ ".bak") ;;
         ret tt).

(** ** The registry and the tasks *)

Definition stage_env : ProjectEnvironment :=
  mkEnv "stage" (OsPath.join (PROJECT_BASE_PATH c) ["stage"]).

Definition live_env : ProjectEnvironment :=
  mkEnv "live" (OsPath.join (PROJECT_BASE_PATH c) ["live"]).

(** The dictionary [ENVIRONMENTS], as a lookup. *)
Definition ENVIRONMENTS (variant : string) : option ProjectEnvironment :=
  if String.eqb variant "stage" then Some stage_env
  else if String.eqb variant "live" then Some live_env
  else None.

(** [ENVIRONMENTS[variant]] *)
Definition lookup_env (variant : string) : M ProjectEnvironment :=
  match ENVIRONMENTS variant with
  | Some env => ret env
  | None => raise (KeyError variant)
  end.

Definition deploy (variant : string) : M unit :=
  env <- lookup_env variant ;;
  pull_updates env ;;
  (if String.eqb variant "stage" then
     live <- lookup_env "live" ;;
     reset_data_from env live
   else if String.eqb variant "live" then
     yes <- _yes w "Backup dabase?" ;;
     (if yes then backup_database env ;; ret tt else ret tt) ;;
     yes <- _yes w "Backup uploads?" ;;
     (if yes then backup_uploads env ;; ret tt else ret tt)
   else ret tt) ;;
  migrate_database env ;;
  reload_wsgi env.

Definition clear_cache_task (variant : string) : M unit :=
  env <- lookup_env variant ;;
  clear_cache env.

Definition fetch_data (variant : string) : M unit :=
  (if negb (Nat.eqb (List.length (env_hosts rt)) 1)
   then abort "Use this with a single host" else ret tt) ;;
  let project_dir := OsPath.join (WHEREAMI rt) [SRC_DIR c; PROJECT_NAME c] in
  env <- lookup_env variant ;;
  backups <- backup_data env ;;
  let db_backup_file := fst backups in
  let upload_backup_dir := snd backups in
  let local_db_file :=
    OsPath.join (gettempdir rt) [OsPath.basename db_backup_file] in
  fab_get w db_backup_file local_db_file ;;
  yes <- _yes w ("Reset local database content from '" ++ variant ++ "'?") ;;
  if negb yes then ret tt
  else
    fab_local w ("cd " ++ project_dir ++ "; ./manage.py db_clear --noinput") ;;
    fab_local w ("cd " ++ project_dir ++ "; ./manage.py db_load "
                 ++ local_db_file ++ " --noinput") ;;
    yes <- _yes w "Fetch uploads as well?" ;;
    if yes then
      host0 <- py_index (env_hosts rt) 0 ;;
      host <- py_index (PyStr.split1 host0 ":"%char) 0 ;;
      fab_local w ("cd " ++ project_dir ++ "; rdiff-backup --force -r now "
                   ++ host ++ "::" ++ upload_backup_dir ++ " "
                   ++ OsPath.join project_dir [UPLOADS_DIR c])
    else ret tt.

End Fabfile.


(** * Vocabulary of the properties *)

(** ** Strings *)

(** [sub] occurs somewhere in [s]. *)
Definition occurs (sub s : string) : Prop :=
  exists pre post, s = pre ++ sub ++ post.

Fixpoint has_char (c : ascii) (s : string) : bool :=
  match s with
  | EmptyString => false
  | String a s' => Ascii.eqb a c || has_char c s'
  end.

Fixpoint all_space (s : string) : bool :=
  match s with
  | EmptyString => true
  | String a s' => PyStr.isspace a && all_space s'
  end.

Fixpoint last_char (s : string) : option ascii :=
  match s with
  | EmptyString => None
  | String a EmptyString => Some a
  | String _ s' => last_char s'
  end.

(** Neither the first nor the last character is whitespace. *)
Definition trimmed (v : string) : Prop :=
  (forall a t, v = String a t -> PyStr.isspace a = false) /\
  (forall a, last_char v = Some a -> PyStr.isspace a = false).


(** ** Traces *)

(** The [fab.run] events of a trace: what reached the remote host. *)
Definition is_run (e : Event) : bool :=
  match e with EvRun _ _ => true | _ => false end.

Definition remote (evs : list Event) : list Event := filter is_run evs.

(** Every event [m] can emit satisfies [P], and every value it can return
    satisfies [Q], whatever the context and the history. *)
Definition satisfies {A} (m : M A) (P : Event -> Prop) (Q : A -> Prop) : Prop :=
  forall cd h,
    Forall P (snd (m cd h)) /\ (forall a, fst (m cd h) = Ok a -> Q a).

(** The operator declines [question] whenever it is asked. *)
Definition declines (w : World) (question : string) : Prop :=
  forall h, prompt_input w h (question ++ " (y/n)") <> "y".

(** The operator accepts [question] whenever it is asked. *)
Definition accepts (w : World) (question : string) : Prop :=
  forall h, prompt_input w h (question ++ " (y/n)") = "y".

(** Fabric never aborts a [fab.run]. *)
Definition runs_return (w : World) : Prop :=
  forall h cd cmd, run_reply w h cd cmd <> None.

(** ** The commands and questions of the fabfile *)

Section Commands.

Variable c : Conf.

Definition srcdir (self : ProjectEnvironment) : string :=
  OsPath.join (path self) [SRC_DIR c].

Definition db_backup_cmd (self : ProjectEnvironment) : string :=
  "./manage.py db_backup " ++
  OsPath.join (backupdir c self)
    ["db_backup_" ++ PROJECT_NAME c ++ "_" ++ name self].

Definition cache_clear_cmd : string :=
  "./manage.py cache_clear " ++ conf_str (CACHE_CLEAR_MODELS c).

Definition db_load_cmd (db_file : string) : string :=
  "./manage.py db_load --noinput " ++ db_file.

Definition uploads_backup_dir (self : ProjectEnvironment) : string :=
  OsPath.join (backupdir c self)
    [PROJECT_NAME c ++ "_" ++ name self ++ "_uploads"].

Definition rdiff_backup_cmd (self : ProjectEnvironment) : string :=
  "rdiff-backup " ++ OsPath.join (projdir c self) [UPLOADS_DIR c]
  ++ " " ++ uploads_backup_dir self.

Definition mv_uploads_cmd : string :=
  "mv " ++ UPLOADS_DIR c ++ " " ++ UPLOADS_DIR c ++ ".bak".

Definition cp_uploads_cmd (other_env : ProjectEnvironment) : string :=
  "cp -a " ++ OsPath.join (projdir c other_env) [UPLOADS_DIR c]
  ++ " " ++ UPLOADS_DIR c.

Definition rm_uploads_cmd : string :=
  "rm -r " ++ UPLOADS_DIR c ++ ".bak".

(** The three commands that swap the upload directory. *)
Definition uploads_swap_cmds (other_env : ProjectEnvironment) : list string :=
  [mv_uploads_cmd; cp_uploads_cmd other_env; rm_uploads_cmd].

Definition reset_question (self other_env : ProjectEnvironment) : string :=
  "Reset database '" ++ name self ++ "' content from '"
  ++ name other_env ++ "'?".

(** The text of the second question of [reset_data_from], as the code
    builds it. *)
Definition copy_question (self other_env : ProjectEnvironment) : string :=
  "Copy media files from '" ++ name self ++ "' to '"
  ++ name other_env ++ "'?".

Definition fetch_question (variant : string) : string :=
  "Reset local database content from '" ++ variant ++ "'?".

(** What [backup_database] makes of the output of [db_backup]. *)
Definition backup_file_of (out : string) : string :=
  match nth_error (PyStr.split1 out ":"%char) 1 with
  | Some piece => PyStr.strip piece
  | None => ""
  end.

(** The output [r] passes the check of [backup_database]. *)
Definition backup_accepted (r : RunResult) : Prop :=
  succeeded r = true /\ (0 < PyStr.find (output r) backup_marker)%Z.

(** The backup command of [env] always answers [r]. *)
Definition backup_answers (w : World) (env : ProjectEnvironment)
    (r : RunResult) : Prop :=
  forall h cd, run_reply w h cd (db_backup_cmd env) = Some r.

(** *** The steps of a deployment, each a group of remote commands *)

Definition step_pull (env : ProjectEnvironment) : list Event :=
  [EvRun [srcdir env] "git pull"].

Definition step_cache_clear (env : ProjectEnvironment) : list Event :=
  [EvRun [projdir c env] cache_clear_cmd].

Definition step_backup (env : ProjectEnvironment) : list Event :=
  [EvRun [projdir c env] (db_backup_cmd env)].

Definition step_backup_uploads (env : ProjectEnvironment) : list Event :=
  [EvRun [] (rdiff_backup_cmd env)].

Definition step_clear (env : ProjectEnvironment) : list Event :=
  [EvRun [projdir c env] "./manage.py db_clear --noinput"].

Definition step_load (env : ProjectEnvironment) (db_file : string)
    : list Event :=
  [EvRun [projdir c env] (db_load_cmd db_file)].

Definition step_uploads (env other_env : ProjectEnvironment) : list Event :=
  map (EvRun [projdir c env]) (uploads_swap_cmds other_env).

Definition step_migrate (env : ProjectEnvironment) : list Event :=
  [EvRun [projdir c env] "./manage.py migrate"].

Definition step_reload (env : ProjectEnvironment) : list Event :=
  [EvRun [srcdir env] "touch app.wsgi"].

(** The eight steps of a stage deployment in which everything is accepted. *)
Definition stage_steps (db_file : string) : list (list Event) :=
  [ step_pull (stage_env c);
    step_cache_clear (stage_env c);
    step_backup (live_env c);
    step_clear (stage_env c);
    step_load (stage_env c) db_file;
    step_uploads (stage_env c) (live_env c);
    step_migrate (stage_env c);
    step_reload (stage_env c) ].

(** The same without the cache-clear step. *)
Definition stage_steps_no_cache (db_file : string) : list (list Event) :=
  [ step_pull (stage_env c);
    step_backup (live_env c);
    step_clear (stage_env c);
    step_load (stage_env c) db_file;
    step_uploads (stage_env c) (live_env c);
    step_migrate (stage_env c);
    step_reload (stage_env c) ].

(** The steps of a live deployment with the two backup decisions. *)
Definition live_steps (backup_db backup_up : bool) : list (list Event) :=
  ([step_pull (live_env c)]
   ++ (if backup_db then [step_backup (live_env c)] else [])
   ++ (if backup_up then [step_backup_uploads (live_env c)] else [])
   ++ [step_migrate (live_env c); step_reload (live_env c)])%list.

End Commands.

(** The outcome of [fetch_data] stopping at its host-count guard. *)
Definition single_host_abort : Outcome unit * list Event :=
  (Raise (SystemExit "Use this with a single host"), []).

(** The operator's answer to [question] is always [b]. *)
Definition answers (w : World) (question : string) (b : bool) : Prop :=
  forall h, String.eqb (prompt_input w h (question ++ " (y/n)")) "y" = b.

(** What [clear_cache] adds to the trace when its command returns. *)
Definition cache_events (c : Conf) (cd : list string)
    (self : ProjectEnvironment) : list Event :=
  if conf_truthy (CACHE_CLEAR_MODELS c)
  then [EvPrint "Clearing cache";
        EvRun (cd ++ [projdir c self])%list (cache_clear_cmd c)]
  else [EvPrint "CACHE_CLEAR_MODELS is empty, not clearing cache"].

(** The stage scenario as the specification words it: with every question
    accepted, every command returning and the backup output accepted, the
    remote commands are those of the eight steps. *)
Definition stage_deploy_claim (c : Conf) (w : World) (h : list Event)
    (r : RunResult) : Prop :=
  runs_return w ->
  backup_answers c w (live_env c) r ->
  backup_accepted r ->
  (forall q, accepts w q) ->
  remote (snd (deploy c w "stage" [] h)) =
  List.concat (stage_steps c (backup_file_of (output r))).

(** Events of a [fetch_data] that touches nothing local: no [fab.local]
    command and no question about fetching the uploads. *)
Definition nothing_local (e : Event) : Prop :=
  match e with
  | EvLocal _ => False
  | EvPrompt text _ => text <> "Fetch uploads as well? (y/n)"
  | _ => True
  end.

(** Fabric never aborts a [fab.get]. *)
Definition gets_return (w : World) : Prop :=
  forall h r l, get_reply w h r l = true.

Section FetchVocabulary.

Variable c : Conf.
Variable rt : Runtime.

(** What [fetch_data] has done when it asks its first question: both
    remote backups and the download of the database dump. *)
Definition fetched_before_asking (env : ProjectEnvironment)
    (db_file : string) : list Event :=
  [EvRun [projdir c env] (db_backup_cmd c env);
   EvRun [] (rdiff_backup_cmd c env);
   EvGet db_file (OsPath.join (gettempdir rt) [OsPath.basename db_file])].

End FetchVocabulary.

(** The trace [evs] begins with [p]. *)
Definition starts_with (evs p : list Event) : Prop :=
  exists rest, evs = (p ++ rest)%list.

(** The outcome of a [fab.run] whose result is thrown away. *)
Definition ran (w : World) (h : list Event) (cd : list string)
    (cmd : string) : Outcome unit * list Event :=
  (match run_reply w h cd cmd with
   | Some _ => Ok tt
   | None => Raise OperationFailed
   end, [EvRun cd cmd]).

(** A trace whose remote commands are all [manage.py] commands. *)
Definition manage_only (e : Event) : Prop :=
  forall d cmd, e = EvRun d cmd -> String.prefix "./manage.py " cmd = true.

(** ** A sample installation *)

Definition shop_conf : Conf :=
  mkConf "shop" "/srv/shop" "backups" "media/uploads" "src" (Some "shop.Item").

(** The same installation with [CACHE_CLEAR_MODELS = None]. *)
Definition shop_conf_no_cache : Conf :=
  mkConf "shop" "/srv/shop" "backups" "media/uploads" "src" None.

Definition shop_backup_reply : RunResult :=
  mkRunResult true
    "Database successfully backed up to: /srv/shop/live/backups/db.sql".

(** Every command succeeds and prints the backup message; the operator
    types [answer] at every prompt. *)
Definition shop_world (answer : string) : World :=
  mkWorld (fun _ _ _ => Some shop_backup_reply)
          (fun _ _ => true) (fun _ _ _ => true) (fun _ _ => answer).

(** A live deployment's operator: one answer per backup question. *)
Definition live_operator (backup_db backup_up : bool) : World :=
  mkWorld (fun _ _ _ => Some shop_backup_reply)
          (fun _ _ => true) (fun _ _ _ => true)
          (fun _ text =>
             if String.eqb text "Backup dabase? (y/n)"
             then (if backup_db then "y" else "n")
             else if String.eqb text "Backup uploads? (y/n)"
             then (if backup_up then "y" else "n")
             else "").

Definition shop_runtime (hosts : list string) : Runtime :=
  mkRuntime "/home/dev/shop" "/tmp" hosts.

(** A backup command whose output begins with the marker. *)
Definition marker_first_reply : RunResult :=
  mkRunResult true (backup_marker ++ " /srv/shop/live/backups/db.sql").

Definition marker_first_world : World :=
  mkWorld (fun _ _ _ => Some marker_first_reply)
          (fun _ _ => true) (fun _ _ _ => true) (fun _ _ => "y").

(** The operator accepts everything except copying the media files from
    the stage environment. *)
Definition copy_declined_world : World :=
  mkWorld (fun _ _ _ => Some shop_backup_reply)
          (fun _ _ => true) (fun _ _ _ => true)
          (fun _ text =>
             if String.eqb text "Copy media files from 'stage' to 'live'? (y/n)"
             then "n" else "y").

(** * The database settings of an environment

    [ProjectEnvironment.db_conf] and the functions under it run no Fabric
    operation: they import Django and the project's settings module,
    call [setup_environ] and read settings.  They are modelled on their
    own: the state is the two cached attributes of the environment object
    and the number of [setup_environ] calls made so far; a Django
    installation is its version and its settings.  The Python process is
    either a working installation or one in which bootstrapping Django
    raises. *)

Module Django.

(** [s.rsplit(c, 1)]: a two-element list cut at the last [c], or [[s]] *)
Fixpoint rsplit1 (s : string) (c : ascii) : list string :=
  match s with
  | EmptyString => [EmptyString]
  | String a s' =>
      match rsplit1 s' c with
      | [b; t] => [String a b; t]
      | _ => if Ascii.eqb a c then [EmptyString; s'] else [s]
      end
  end.

(** [a < b] on tuples of integers: the first differing component
    decides, and a proper prefix is smaller. *)
Fixpoint tuple_lt (a b : list Z) : bool :=
  match a, b with
  | [], [] => false
  | [], _ :: _ => true
  | _ :: _, [] => false
  | x :: a', y :: b' => if Z.eqb x y then tuple_lt a' b' else Z.ltb x y
  end.

Inductive Err : Type :=
| AttributeError (attribute : string)
| KeyError (key : string)
| IndexError
| ImportError (module : string).

Inductive Res (A : Type) : Type :=
| Val (a : A)
| Exc (e : Err).
Arguments Val {A} a.
Arguments Exc {A} e.

Definition rbind {A B} (r : Res A) (k : A -> Res B) : Res B :=
  match r with
  | Val a => k a
  | Exc e => Exc e
  end.

(** A Python dictionary with string keys, as its lookup. *)
Definition Dict (V : Type) : Type := string -> option V.

(** [d[key]] *)
Definition getitem {V} (d : Dict V) (key : string) : Res V :=
  match d key with
  | Some v => Val v
  | None => Exc (KeyError key)
  end.

(** [l[-1]] *)
Definition last_item (l : list string) : Res string :=
  match rev l with
  | x :: _ => Val x
  | [] => Exc IndexError
  end.

(** [django.conf.settings]: the string-valued settings by name, and
    [DATABASES] when it is defined. *)
Record Settings : Type := mkSettings {
  setting : Dict string;
  DATABASES : option (Dict (Dict string))
}.

(** [settings.<name>] *)
Definition getattr (s : Settings) (name : string) : Res string :=
  match setting s name with
  | Some v => Val v
  | None => Exc (AttributeError name)
  end.

(** [settings.DATABASES] *)
Definition getattr_DATABASES (s : Settings) : Res (Dict (Dict string)) :=
  match DATABASES s with
  | Some d => Val d
  | None => Exc (AttributeError "DATABASES")
  end.

(** A Django installation: the integer components of [django.VERSION]
    and the settings [setup_environ] installs. *)
Record Install : Type := mkInstall {
  VERSION : list Z;
  settings : Settings
}.

(** The dictionary [_get_db_conf] builds. *)
Record DbConf : Type := mkDbConf {
  engine : string;
  db_name : string;
  user : string;
  password : string;
  host : string;
  port : string
}.

(** The cached attributes of a [ProjectEnvironment] object. *)
Record Cache : Type := mkCache {
  _db_conf : option DbConf;
  _django_version : option (list Z)
}.

(** The cache [__init__] leaves. *)
Definition fresh : Cache := mkCache None None.

(** The Python process the fabfile runs in: a working Django
    installation, or one in which [_bootstrap_django()] raises [e],
    either in its imports ([setup_called = false]) or from
    [setup_environ] on ([setup_called = true]). *)
Inductive Python : Type :=
| Working (dj : Install)
| Broken (e : Err) (setup_called : bool).

#[local] Coercion Working : Install >-> Python.

(** Module-level [_bootstrap_django()]: the imports, one more
    [setup_environ], and [django.VERSION[:2]]. *)
Definition _bootstrap_django (py : Python) (setups : nat)
    : Res (list Z) * nat :=
  match py with
  | Working dj => (Val (firstn 2 (VERSION dj)), S setups)
  | Broken e setup_called =>
      (Exc e, if setup_called then S setups else setups)
  end.

(** [from django.conf import settings] *)
Definition import_settings (py : Python) : Res Settings :=
  match py with
  | Working dj => Val (settings dj)
  | Broken e _ => Exc e
  end.

(** [ProjectEnvironment._bootstrap_django]; the [fab.cd] block around the
    call encloses no Fabric operation.  The attribute is assigned only
    when the call returns. *)
Definition ProjectEnvironment_bootstrap_django (py : Python)
    (self : Cache) (setups : nat) : Res (list Z) * Cache * nat :=
  match _django_version self with
  | None =>
      match _bootstrap_django py setups with
      | (Val version, setups') =>
          (Val version, mkCache (_db_conf self) (Some version), setups')
      | (Exc e, setups') => (Exc e, self, setups')
      end
  | Some version => (Val version, self, setups)
  end.

(** [ProjectEnvironment._get_db_conf]: the values of the dictionary are
    evaluated in the order they are written. *)
Definition _get_db_conf (py : Python) (self : Cache) (setups : nat)
    : Res DbConf * Cache * nat :=
  let '(bootstrapped, self', setups') :=
    ProjectEnvironment_bootstrap_django py self setups in
  let db_conf :=
    rbind bootstrapped (fun version =>
    rbind (import_settings py) (fun s =>
    let default :=
      rbind (getattr_DATABASES s) (fun dbs => getitem dbs "default") in
    if tuple_lt version [1; 2]%Z then
      rbind (getattr s "DATABASE_ENGINE") (fun e =>
      rbind (getattr s "DATABASE_NAME") (fun n =>
      rbind (getattr s "DATABASE_USER") (fun u =>
      rbind (getattr s "DATABASE_PASSWORD") (fun p =>
      rbind (getattr s "DATABASE_HOST") (fun h =>
      rbind (getattr s "DATABASE_PORT") (fun o =>
      Val (mkDbConf e n u p h o)))))))
    else
      rbind (rbind default (fun d => getitem d "ENGINE")) (fun full =>
      rbind (last_item (rsplit1 full "."%char)) (fun e =>
      rbind (rbind default (fun d => getitem d "NAME")) (fun n =>
      rbind (rbind default (fun d => getitem d "USER")) (fun u =>
      rbind (rbind default (fun d => getitem d "PASSWORD")) (fun p =>
      rbind (rbind default (fun d => getitem d "HOST")) (fun h =>
      rbind (rbind default (fun d => getitem d "PORT")) (fun o =>
      Val (mkDbConf e n u p h o)))))))))) in
  (db_conf, self', setups').

(** The property [ProjectEnvironment.db_conf]. *)
Definition db_conf (py : Python) (self : Cache) (setups : nat)
    : Res DbConf * Cache * nat :=
  match _db_conf self with
  | None =>
      let '(r, self', setups') := _get_db_conf py self setups in
      match r with
      | Val d => (Val d, mkCache (Some d) (_django_version self'), setups')
      | Exc e => (Exc e, self', setups')
      end
  | Some d => (Val d, self, setups)
  end.

(** Version [major.minor] is at least 1.2. *)
Definition at_least_1_2 (major minor : Z) : Prop :=
  (1 < major)%Z \/ (major = 1%Z /\ (2 <= minor)%Z).

(** A dictionary from an association list. *)
Fixpoint dict_of (l : list (string * string)) : Dict string :=
  fun key =>
    match l with
    | [] => None
    | (k, v) :: l' => if String.eqb k key then Some v else dict_of l' key
    end.

(** A Django 1.3 project on PostgreSQL. *)
Definition sample_install : Install :=
  mkInstall [1; 3; 1]%Z
    (mkSettings (fun _ => None)
       (Some (fun alias =>
          if String.eqb alias "default"
          then Some (dict_of
                 [("ENGINE", "django.db.backends.postgresql_psycopg2");
                  ("NAME", "shop"); ("USER", "shop"); ("PASSWORD", "secret");
                  ("HOST", "localhost"); ("PORT", "5432")])
          else None))).

(** A Django 1.1 project with the old flat settings. *)
Definition old_install : Install :=
  mkInstall [1; 1; 4]%Z
    (mkSettings
       (dict_of [("DATABASE_ENGINE", "postgresql_psycopg2");
                 ("DATABASE_NAME", "shop"); ("DATABASE_USER", "shop");
                 ("DATABASE_PASSWORD", "secret");
                 ("DATABASE_HOST", "localhost"); ("DATABASE_PORT", "")])
       None).

End Django.

(** A working installation is a Python process. *)
Coercion Django.Working : Django.Install >-> Django.Python.

(** * Vocabulary of the further properties *)

(** Like [satisfies], for a computation started inside the [fab.cd]
    blocks [cd]. *)
Definition satisfies_at {A} (cd : list string) (m : M A)
    (P : Event -> Prop) (Q : A -> Prop) : Prop :=
  forall h,
    Forall P (snd (m cd h)) /\ (forall a, fst (m cd h) = Ok a -> Q a).

(** Fabric never aborts a [fab.local]. *)
Definition locals_return (w : World) : Prop :=
  forall h cmd, local_reply w h cmd = true.

Section Scopes.

Variable c : Conf.

(** No reply to the backup command of [env] passes the check of
    [backup_database]. *)
Definition backup_never_accepted (w : World) (env : ProjectEnvironment)
    : Prop :=
  forall h cd r,
    run_reply w h cd (db_backup_cmd c env) = Some r -> ~ backup_accepted r.

(** What [reset_data_from] may send before it holds a backup. *)
Definition before_backup (other_env : ProjectEnvironment) (e : Event)
    : Prop :=
  forall d cmd, e = EvRun d cmd ->
    cmd = cache_clear_cmd c \/ cmd = db_backup_cmd c other_env.

(** Where a stage deployment may act: in the stage source and project
    directories, and in the live project directory only to back up its
    database; nothing local. *)
Definition stage_deploy_scope (e : Event) : Prop :=
  match e with
  | EvRun d cmd =>
      d = [srcdir c (stage_env c)] \/ d = [projdir c (stage_env c)] \/
      (d = [projdir c (live_env c)] /\ cmd = db_backup_cmd c (live_env c))
  | EvLocal _ => False
  | EvGet _ _ => False
  | _ => True
  end.

(** The only commands a live deployment may send. *)
Definition live_deploy_cmds : list (list string * string) :=
  [ ([srcdir c (live_env c)], "git pull");
    ([projdir c (live_env c)], db_backup_cmd c (live_env c));
    ([], rdiff_backup_cmd c (live_env c));
    ([projdir c (live_env c)], "./manage.py migrate");
    ([srcdir c (live_env c)], "touch app.wsgi") ].

Definition live_deploy_scope (e : Event) : Prop :=
  match e with
  | EvRun d cmd => In (d, cmd) live_deploy_cmds
  | EvLocal _ => False
  | EvGet _ _ => False
  | _ => True
  end.

(** The only remote commands [fetch_data] may send: the two backups of
    the environment it fetches from. *)
Definition fetch_remote_scope (variant : string) (e : Event) : Prop :=
  forall d cmd, e = EvRun d cmd ->
    exists env, ENVIRONMENTS c variant = Some env /\
      ((d = [projdir c env] /\ cmd = db_backup_cmd c env) \/
       (d = [] /\ cmd = rdiff_backup_cmd c env)).

End Scopes.

Section FetchCommands.

Variable c : Conf.
Variable rt : Runtime.

Definition local_project_dir : string :=
  OsPath.join (WHEREAMI rt) [SRC_DIR c; PROJECT_NAME c].

Definition local_db_file (db_file : string) : string :=
  OsPath.join (gettempdir rt) [OsPath.basename db_file].

Definition local_db_clear_cmd : string :=
  "cd " ++ local_project_dir ++ "; ./manage.py db_clear --noinput".

Definition local_db_load_cmd (db_file : string) : string :=
  "cd " ++ local_project_dir ++ "; ./manage.py db_load "
  ++ local_db_file db_file ++ " --noinput".

Definition local_rdiff_cmd (host : string) (env : ProjectEnvironment)
    : string :=
  "cd " ++ local_project_dir ++ "; rdiff-backup --force -r now "
  ++ host ++ "::" ++ uploads_backup_dir c env ++ " "
  ++ OsPath.join local_project_dir [UPLOADS_DIR c].

(** [s.split(ch, 1)[0]] *)
Definition transfer_host_of (s : string) (ch : ascii) : string :=
  match PyStr.split1 s ch with
  | first :: _ => first
  | [] => ""
  end.

(** The host name [fetch_data] hands to rdiff-backup:
    [fab.env.hosts[0].split(':', 1)[0]]. *)
Definition transfer_host (host0 : string) : string :=
  transfer_host_of host0 ":"%char.

End FetchCommands.

(** A world whose database backup reports failure. *)
Definition failing_backup_world : World :=
  mkWorld (fun _ _ _ => Some (mkRunResult false "error: disk full"))
          (fun _ _ => true) (fun _ _ _ => true) (fun _ _ => "y").

(** The separator [posixpath.join] puts after [path]: none after an
    empty path or a trailing slash. *)
Definition join_sep (path : string) : string :=
  if (String.eqb path "" || PyStr.endswith_char path "/"%char)%bool
  then "" else "/".

(** A backup command that prints a warning before its success message. *)
Definition early_colon_reply : RunResult :=
  mkRunResult true
    "Warning: low disk. Database successfully backed up to: /srv/db.sql".

Definition early_colon_world : World :=
  mkWorld (fun _ _ _ => Some early_colon_reply)
          (fun _ _ => true) (fun _ _ _ => true) (fun _ _ => "y").

(** What [reset_data_from], started inside the [fab.cd] blocks [cd],
    may do once the copy of the media files is declined: clear the
    cache, clear the database and load an accepted backup in its own
    project directory, and take the backup in the other environment's
    project directory; nothing else remote, nothing local. *)
Definition copy_declined_scope (c : Conf) (w : World) (cd : list string)
    (self other_env : ProjectEnvironment) (e : Event) : Prop :=
  match e with
  | EvRun d cmd =>
      (d = (cd ++ [projdir c self])%list /\
       (cmd = cache_clear_cmd c \/
        cmd = "./manage.py db_clear --noinput" \/
        exists h r,
          run_reply w h (cd ++ [projdir c other_env])%list
            (db_backup_cmd c other_env) = Some r /\
          backup_accepted r /\
          cmd = db_load_cmd (backup_file_of (output r)))) \/
      (d = (cd ++ [projdir c other_env])%list /\
       cmd = db_backup_cmd c other_env)
  | EvLocal _ => False
  | EvGet _ _ => False
  | EvPrompt _ _ => True
  | EvPrint _ => True
  end.

(** A command issued under [fab.cd] of the live project directory path
    is the backup of the live database. *)
Definition live_dir_only_backup (c : Conf) (e : Event) : Prop :=
  match e with
  | EvRun d cmd =>
      d = [projdir c (live_env c)] -> cmd = db_backup_cmd c (live_env c)
  | _ => True
  end.

(** * Properties *)

(** ** Facts about the string operations *)

Module PyStrFacts.
Import PyStr.

Lemma prefix_app p r : String.prefix p (p ++ r) = true.
Proof.
  induction p as [|a p IH]; simpl.
  - destruct r; reflexivity.
  - destruct (ascii_dec a a); [exact IH | congruence].
Qed.

Lemma prefix_split p : forall s,
  String.prefix p s = true -> exists r, s = p ++ r.
Proof.
  induction p as [|a p IH]; intros s H.
  - exists s. reflexivity.
  - destruct s as [|b s]; simpl in H; [discriminate|].
    destruct (ascii_dec a b) as [->|]; [|discriminate].
    destruct (IH _ H) as [r ->]. exists r. reflexivity.
Qed.

Lemma find_unfold s sub :
  find s sub =
  if String.prefix sub s then 0%Z
  else match s with
       | EmptyString => (-1)%Z
       | String _ s' =>
           if (find s' sub <? 0)%Z then (-1)%Z else (find s' sub + 1)%Z
       end.
Proof. destruct s; reflexivity. Qed.

Lemma find_lower s sub : (-1 <= find s sub)%Z.
Proof.
  induction s as [|a s IH]; rewrite find_unfold;
    destruct (String.prefix sub _); try lia.
  destruct (find s sub <? 0)%Z eqn:E; [lia|].
  apply Z.ltb_ge in E. lia.
Qed.

Lemma find_occurs s sub : (0 <= find s sub)%Z <-> occurs sub s.
Proof.
  split.
  - induction s as [|a s IH]; rewrite find_unfold;
      destruct (String.prefix sub _) eqn:P;
      try (intros _; apply prefix_split in P; destruct P as [r ->];
           exists "", r; reflexivity).
    + lia.
    + destruct (find s sub <? 0)%Z eqn:E; [lia|].
      apply Z.ltb_ge in E. intros _.
      destruct (IH E) as (pre & post & ->).
      exists (String a pre), post. reflexivity.
  - intros (pre & post & ->).
    induction pre as [|a pre IH].
    + simpl append at 1. rewrite find_unfold, prefix_app. lia.
    + simpl append at 1. rewrite find_unfold.
      destruct (String.prefix sub _); [lia|].
      destruct (_ <? 0)%Z eqn:E; [apply Z.ltb_lt in E; lia | lia].
Qed.

Lemma find_zero s sub : find s sub = 0%Z <-> String.prefix sub s = true.
Proof.
  rewrite find_unfold.
  destruct (String.prefix sub s); split; intros H;
    try reflexivity; try discriminate.
  destruct s as [|a s]; [lia|].
  pose proof (find_lower s sub).
  destruct (find s sub <? 0)%Z eqn:E; [lia|].
  apply Z.ltb_ge in E. lia.
Qed.

Lemma find_at_start sub rest : find (sub ++ rest) sub = 0%Z.
Proof. apply find_zero, prefix_app. Qed.

Lemma has_char_app c s t :
  has_char c (s ++ t) = has_char c s || has_char c t.
Proof.
  induction s as [|a s IH]; simpl; [reflexivity|].
  rewrite IH. apply orb_assoc.
Qed.

Lemma occurs_has_char c sub s :
  has_char c sub = true -> occurs sub s -> has_char c s = true.
Proof.
  intros H (pre & post & ->).
  rewrite !has_char_app, H. apply orb_true_iff. right. reflexivity.
Qed.

(** [s.split(c, 1)] on a string that has a [c]: the cut is at the first one. *)
Lemma split1_cut c : forall s,
  has_char c s = true ->
  exists before after,
    split1 s c = [before; after] /\
    s = before ++ String c after /\
    has_char c before = false.
Proof.
  induction s as [|a s IH]; simpl; intros H; [discriminate|].
  destruct (Ascii.eqb a c) eqn:E.
  - apply Ascii.eqb_eq in E. subst a.
    exists "", s. repeat split.
  - simpl in H. destruct (IH H) as (b & r & -> & -> & Hb).
    exists (String a b), r. repeat split.
    simpl. rewrite E, Hb. reflexivity.
Qed.

Lemma split1_no_cut c : forall s,
  has_char c s = false -> split1 s c = [s].
Proof.
  induction s as [|a s IH]; simpl; intros H; [reflexivity|].
  apply orb_false_iff in H. destruct H as [E H].
  rewrite E, (IH H). reflexivity.
Qed.

Lemma lstrip_spec : forall s,
  exists l, s = l ++ lstrip s /\ all_space l = true /\
    (forall a t, lstrip s = String a t -> isspace a = false).
Proof.
  induction s as [|a s IH]; simpl.
  - exists "". repeat split. discriminate.
  - destruct (isspace a) eqn:E.
    + destruct IH as (l & Hs & Hl & Hh).
      exists (String a l). simpl. rewrite E, Hl. repeat split; auto.
      f_equal. exact Hs.
    + exists "". repeat split. intros b t H. congruence.
Qed.





Lemma marker_has_colon out :
  (0 <= find out backup_marker)%Z -> has_char ":"%char out = true.
Proof.
  intros H. apply find_occurs in H.
  apply (occurs_has_char _ backup_marker); [reflexivity | exact H].
Qed.

End PyStrFacts.

(** ** Running the monad *)

Lemma bind_ok {A B} (m : M A) (k : A -> M B) cd h a e1 r e2 :
  m cd h = (Ok a, e1) ->
  k a cd (h ++ e1)%list = (r, e2) ->
  bind m k cd h = (r, (e1 ++ e2)%list).
Proof. intros Hm Hk. unfold bind. rewrite Hm, Hk. reflexivity. Qed.

Lemma bind_raise {A B} (m : M A) (k : A -> M B) cd h x e1 :
  m cd h = (Raise x, e1) ->
  bind m k cd h = (Raise x, e1).
Proof. intros Hm. unfold bind. rewrite Hm. reflexivity. Qed.

(** The events of [bind m k] start with the events of [m]. *)
Lemma bind_events {A B} (m : M A) (k : A -> M B) cd h :
  exists rest, snd (bind m k cd h) = (snd (m cd h) ++ rest)%list.
Proof.
  unfold bind. destruct (m cd h) as [[a|x] e1]; simpl.
  - destruct (k a cd (h ++ e1)%list) as [r e2]. exists e2. reflexivity.
  - exists []. symmetry. apply app_nil_r.
Qed.

Lemma yes_run w question cd h :
  _yes w question cd h =
  (Ok (String.eqb (prompt_input w h (question ++ " (y/n)")) "y"),
   [EvPrompt (question ++ " (y/n)") "n"]).
Proof.
  unfold _yes, bind, fab_prompt, ret.
  destruct (prompt_input w h (question ++ " (y/n)")); reflexivity.
Qed.

Lemma yes_declined w question cd h :
  prompt_input w h (question ++ " (y/n)") <> "y" ->
  _yes w question cd h = (Ok false, [EvPrompt (question ++ " (y/n)") "n"]).
Proof.
  intros H. rewrite yes_run.
  apply String.eqb_neq in H. rewrite H. reflexivity.
Qed.

Lemma yes_accepted w question cd h :
  prompt_input w h (question ++ " (y/n)") = "y" ->
  _yes w question cd h = (Ok true, [EvPrompt (question ++ " (y/n)") "n"]).
Proof. intros H. rewrite yes_run, H. reflexivity. Qed.

(** *** Rules for [satisfies] *)

Section Satisfies.

Variable w : World.
Variable P : Event -> Prop.

Lemma sat_ret {A} (a : A) (Q : A -> Prop) : Q a -> satisfies (ret a) P Q.
Proof.
  intros HQ cd h. split; [constructor|].
  simpl. intros b Hb. congruence.
Qed.

Lemma sat_raise {A} (e : Exn) (Q : A -> Prop) : satisfies (raise e) P Q.
Proof. intros cd h. split; [constructor|]. simpl. discriminate. Qed.

Lemma sat_bind {A B} (m : M A) (k : A -> M B) (Q1 : A -> Prop)
    (Q2 : B -> Prop) :
  satisfies m P Q1 ->
  (forall a, Q1 a -> satisfies (k a) P Q2) ->
  satisfies (bind m k) P Q2.
Proof.
  intros Hm Hk cd h. destruct (Hm cd h) as [He Hv]. unfold bind.
  destruct (m cd h) as [[a|x] e1]; simpl in *.
  - destruct (Hk a (Hv a eq_refl) cd (h ++ e1)%list) as [He2 Hv2].
    destruct (k a cd (h ++ e1)%list) as [r e2]; simpl in *.
    split; [apply Forall_app; split; assumption | exact Hv2].
  - split; [exact He | discriminate].
Qed.

Lemma sat_weaken {A} (m : M A) (Q Q' : A -> Prop) :
  satisfies m P Q -> (forall a, Q a -> Q' a) -> satisfies m P Q'.
Proof.
  intros Hm HQ cd h. destruct (Hm cd h) as [He Hv].
  split; [exact He | intros a Ha; apply HQ, Hv, Ha].
Qed.

Lemma sat_cd {A} (p : string) (m : M A) (Q : A -> Prop) :
  satisfies m P Q -> satisfies (fab_cd p m) P Q.
Proof. intros Hm cd h. apply Hm. Qed.

Lemma sat_print (msg : string) :
  P (EvPrint msg) -> satisfies (print msg) P (fun _ => True).
Proof. intros H cd h. split; [repeat constructor; exact H | auto]. Qed.

Lemma sat_run (cmd : string) :
  (forall cd, P (EvRun cd cmd)) ->
  satisfies (fab_run w cmd) P (fun _ => True).
Proof.
  intros H cd h. unfold fab_run.
  destruct (run_reply w h cd cmd); (split; [repeat constructor; apply H | auto]).
Qed.

Lemma sat_local (cmd : string) :
  P (EvLocal cmd) -> satisfies (fab_local w cmd) P (fun _ => True).
Proof.
  intros H cd h. unfold fab_local.
  destruct (local_reply w h cmd); (split; [repeat constructor; apply H | auto]).
Qed.

Lemma sat_get (r l : string) :
  P (EvGet r l) -> satisfies (fab_get w r l) P (fun _ => True).
Proof.
  intros H cd h. unfold fab_get.
  destruct (get_reply w h r l); (split; [repeat constructor; apply H | auto]).
Qed.

Lemma sat_yes (question : string) :
  P (EvPrompt (question ++ " (y/n)") "n") ->
  satisfies (_yes w question) P (fun _ => True).
Proof.
  intros H cd h. rewrite yes_run.
  split; [repeat constructor; exact H | auto].
Qed.

Lemma sat_yes_declined (question : string) :
  P (EvPrompt (question ++ " (y/n)") "n") ->
  declines w question ->
  satisfies (_yes w question) P (fun b => b = false).
Proof.
  intros H Hd cd h. rewrite (yes_declined _ _ _ _ (Hd h)).
  split; [repeat constructor; exact H | simpl; congruence].
Qed.

Lemma sat_assert (b : bool) : satisfies (py_assert b) P (fun _ => b = true).
Proof.
  intros cd h. destruct b; simpl; (split; [constructor|]);
    [reflexivity | discriminate].
Qed.

Lemma sat_index {A} (l : list A) (i : nat) :
  satisfies (py_index l i) P (fun _ => True).
Proof.
  intros cd h. unfold py_index.
  destruct (nth_error l i); simpl; (split; [constructor | auto]).
Qed.

End Satisfies.

(** ** What each method of [ProjectEnvironment] does *)

Section Methods.

Variable c : Conf.
Variable w : World.

Lemma cd_run_run p cmd cd h :
  fab_cd p (fab_run w cmd ;; ret tt) cd h = ran w h (cd ++ [p])%list cmd.
Proof.
  unfold fab_cd, bind, fab_run, ret, ran.
  destruct (run_reply w _ _ _); reflexivity.
Qed.

Lemma pull_updates_run self cd h :
  pull_updates c w self cd h = ran w h (cd ++ [srcdir c self])%list "git pull".
Proof. apply cd_run_run. Qed.

Lemma migrate_database_run self cd h :
  migrate_database c w self cd h =
  ran w h (cd ++ [projdir c self])%list "./manage.py migrate".
Proof. apply cd_run_run. Qed.

Lemma reload_wsgi_run self cd h :
  reload_wsgi c w self cd h =
  ran w h (cd ++ [srcdir c self])%list "touch app.wsgi".
Proof. apply cd_run_run. Qed.

Lemma clear_database_run self cd h :
  clear_database c w self cd h =
  ran w h (cd ++ [projdir c self])%list "./manage.py db_clear --noinput".
Proof. apply cd_run_run. Qed.

Lemma load_database_from_run self db_file cd h :
  load_database_from c w self db_file cd h =
  ran w h (cd ++ [projdir c self])%list (db_load_cmd db_file).
Proof. apply cd_run_run. Qed.

Lemma ran_ok h cd cmd :
  runs_return w -> ran w h cd cmd = (Ok tt, [EvRun cd cmd]).
Proof.
  intros H. unfold ran. specialize (H h cd cmd).
  destruct (run_reply w h cd cmd); [reflexivity | congruence].
Qed.

Lemma clear_cache_run self cd h :
  clear_cache c w self cd h =
  if conf_truthy (CACHE_CLEAR_MODELS c)
  then (fst (ran w (h ++ [EvPrint "Clearing cache"])%list
               (cd ++ [projdir c self])%list (cache_clear_cmd c)),
        [EvPrint "Clearing cache";
         EvRun (cd ++ [projdir c self])%list (cache_clear_cmd c)])
  else (Ok tt, [EvPrint "CACHE_CLEAR_MODELS is empty, not clearing cache"]).
Proof.
  unfold clear_cache.
  destruct (conf_truthy (CACHE_CLEAR_MODELS c)); [|reflexivity].
  unfold bind at 1, print, ran. fold (cache_clear_cmd c).
  rewrite cd_run_run. unfold ran.
  destruct (run_reply w _ _ _); reflexivity.
Qed.

Lemma backup_uploads_run self cd h :
  backup_uploads c w self cd h =
  (match run_reply w h cd (rdiff_backup_cmd c self) with
   | Some _ => Ok (uploads_backup_dir c self)
   | None => Raise OperationFailed
   end, [EvRun cd (rdiff_backup_cmd c self)]).
Proof.
  unfold backup_uploads, bind, fab_run, ret, rdiff_backup_cmd,
    uploads_backup_dir.
  destruct (run_reply w _ _ _); reflexivity.
Qed.

Lemma backup_database_run self cd h :
  backup_database c w self cd h =
  (match run_reply w h (cd ++ [projdir c self])%list (db_backup_cmd c self) with
   | None => Raise OperationFailed
   | Some r =>
       if succeeded r && (0 <? PyStr.find (output r) backup_marker)%Z
       then match nth_error (PyStr.split1 (output r) ":"%char) 1 with
            | Some piece => Ok (PyStr.strip piece)
            | None => Raise IndexError
            end
       else Raise AssertionError
   end,
   [EvRun (cd ++ [projdir c self])%list (db_backup_cmd c self)]).
Proof.
  unfold backup_database, fab_cd, bind, fab_run, db_backup_cmd,
    py_assert, py_index, ret, raise.
  destruct (run_reply w _ _ _) as [r|]; [|reflexivity].
  destruct (succeeded r && _); [|reflexivity].
  destruct (nth_error _ 1); reflexivity.
Qed.

(** An accepted output always has a second piece: the [IndexError] of
    [split(':', 1)[1]] cannot happen after the assertion. *)
Lemma backup_database_accepted self cd h r :
  run_reply w h (cd ++ [projdir c self])%list (db_backup_cmd c self) = Some r ->
  backup_accepted r ->
  backup_database c w self cd h =
  (Ok (backup_file_of (output r)),
   [EvRun (cd ++ [projdir c self])%list (db_backup_cmd c self)]).
Proof.
  intros Hr [Hs Hm]. rewrite backup_database_run, Hr, Hs.
  apply Z.ltb_lt in Hm. rewrite Hm. simpl andb. cbv iota.
  apply Z.ltb_lt in Hm.
  assert (Hc : has_char ":"%char (output r) = true)
    by (apply PyStrFacts.marker_has_colon; lia).
  destruct (PyStrFacts.split1_cut _ _ Hc) as (b & rest & Hsp & _ & _).
  unfold backup_file_of. rewrite Hsp. reflexivity.
Qed.

Lemma backup_database_rejected self cd h r :
  run_reply w h (cd ++ [projdir c self])%list (db_backup_cmd c self) = Some r ->
  ~ backup_accepted r ->
  backup_database c w self cd h =
  (Raise AssertionError,
   [EvRun (cd ++ [projdir c self])%list (db_backup_cmd c self)]).
Proof.
  intros Hr Hn. rewrite backup_database_run, Hr.
  destruct (succeeded r) eqn:Hs; [|reflexivity].
  destruct (0 <? PyStr.find (output r) backup_marker)%Z eqn:Hm; [|reflexivity].
  exfalso. apply Hn. split; [exact Hs | apply Z.ltb_lt, Hm].
Qed.

End Methods.

(** ** [clear_cache] *)

Section ClearCache.

Variable c : Conf.
Variable w : World.

Lemma conf_truthy_iff :
  conf_truthy (CACHE_CLEAR_MODELS c) = true <->
  exists s, CACHE_CLEAR_MODELS c = Some s /\ s <> "".
Proof.
  destruct (CACHE_CLEAR_MODELS c) as [[|a s]|]; simpl; split.
  - discriminate.
  - intros (s & E & Hs). congruence.
  - intros _. exists (String a s). split; [reflexivity | discriminate].
  - reflexivity.
  - discriminate.
  - intros (s & E & _). discriminate.
Qed.

(** C6. [clear_cache] sends the cache-clear command to the remote host if
    and only if [CACHE_CLEAR_MODELS] is a non-empty string (neither [None]
    nor empty).  When it is, the one remote command is
    [./manage.py cache_clear <models>] in the project directory; when it
    is not, nothing is sent: the method returns normally and its only
    event is the printed message that the cache is not cleared. *)
Theorem clear_cache_iff_models (self : ProjectEnvironment)
    (cd : list string) (h : list Event) :
  ((exists d cmd, In (EvRun d cmd) (snd (clear_cache c w self cd h))) <->
   (exists s, CACHE_CLEAR_MODELS c = Some s /\ s <> "")) /\
  remote (snd (clear_cache c w self cd h)) =
    (if conf_truthy (CACHE_CLEAR_MODELS c)
     then [EvRun (cd ++ [projdir c self])%list
             ("./manage.py cache_clear " ++ conf_str (CACHE_CLEAR_MODELS c))]
     else []) /\
  (if conf_truthy (CACHE_CLEAR_MODELS c) then True
   else clear_cache c w self cd h =
        (Ok tt, [EvPrint "CACHE_CLEAR_MODELS is empty, not clearing cache"])).
Proof.
  rewrite <- conf_truthy_iff, clear_cache_run.
  destruct (conf_truthy (CACHE_CLEAR_MODELS c)); simpl snd.
  - repeat split.
    eexists _, _. right. left. reflexivity.
  - repeat split.
    + intros (d & cmd & [H|[]]). discriminate.
    + discriminate.
Qed.

End ClearCache.

(** ** [backup_database] *)

Section BackupDatabase.

Variable c : Conf.
Variable w : World.


(** C9. The check of [backup_database] is [find(marker) > 0]: whenever
    the function returns, the marker was found at a strictly positive
    index; and an output that begins with the marker, although it
    contains it (at index 0), fails the assertion. *)
Theorem backup_database_marker_at_start (self : ProjectEnvironment)
    (cd : list string) (h : list Event) (r : RunResult) :
  run_reply w h (cd ++ [projdir c self])%list (db_backup_cmd c self) = Some r ->
  (forall v evs, backup_database c w self cd h = (Ok v, evs) ->
   (0 < PyStr.find (output r) backup_marker)%Z) /\
  (forall rest, output r = backup_marker ++ rest ->
   occurs backup_marker (output r) /\
   PyStr.find (output r) backup_marker = 0%Z /\
   backup_database c w self cd h =
     (Raise AssertionError,
      [EvRun (cd ++ [projdir c self])%list (db_backup_cmd c self)])).
Proof.
  intros Hr. split.
  - intros v evs Hv.
    destruct (Z.ltb_spec 0 (PyStr.find (output r) backup_marker)) as [L|L];
      [exact L|].
    rewrite backup_database_rejected with (r := r) in Hv;
      [discriminate | exact Hr |].
    intros [_ Hm]. lia.
  - intros rest Hout.
    assert (Hz : PyStr.find (output r) backup_marker = 0%Z)
      by (rewrite Hout; apply PyStrFacts.find_at_start).
    repeat split.
    + exists "", rest. exact Hout.
    + exact Hz.
    + apply backup_database_rejected with (r := r); [exact Hr|].
      intros [_ Hm]. lia.
Qed.

End BackupDatabase.


Lemma backup_database_marker_at_start_witness :
  backup_database shop_conf marker_first_world (live_env shop_conf) [] [] =
  (Raise AssertionError,
   [EvRun [projdir shop_conf (live_env shop_conf)]
      (db_backup_cmd shop_conf (live_env shop_conf))]).
Proof.
  refine (proj2 (proj2 (proj2 (backup_database_marker_at_start shop_conf
            marker_first_world (live_env shop_conf) [] [] marker_first_reply
            eq_refl) " /srv/shop/live/backups/db.sql" eq_refl))).
Defined.

(** ** [reset_data_from] *)

Section ManageCommands.

Variable c : Conf.
Variable w : World.
Variable P : Event -> Prop.
Hypothesis P_manage :
  forall cd cmd, String.prefix "./manage.py " cmd = true -> P (EvRun cd cmd).
Hypothesis P_print : forall msg, P (EvPrint msg).

Lemma sat_manage (p cmd : string) :
  String.prefix "./manage.py " cmd = true ->
  satisfies (fab_cd p (fab_run w cmd ;; ret tt)) P (fun _ => True).
Proof.
  intros H. apply sat_cd.
  apply sat_bind with (Q1 := fun _ => True).
  - apply sat_run. intros cd. apply P_manage, H.
  - intros _ _. apply sat_ret. exact I.
Qed.

Lemma sat_clear_cache self :
  satisfies (clear_cache c w self) P (fun _ => True).
Proof.
  unfold clear_cache. destruct (conf_truthy (CACHE_CLEAR_MODELS c)).
  - apply sat_bind with (Q1 := fun _ => True); [apply sat_print, P_print|].
    intros _ _. apply sat_manage. reflexivity.
  - apply sat_print, P_print.
Qed.

Lemma sat_clear_database self :
  satisfies (clear_database c w self) P (fun _ => True).
Proof. apply sat_manage. reflexivity. Qed.

Lemma sat_load_database_from self db_file :
  satisfies (load_database_from c w self db_file) P (fun _ => True).
Proof. apply sat_manage. reflexivity. Qed.

Lemma sat_backup_database self :
  satisfies (backup_database c w self) P (fun _ => True).
Proof.
  intros cd h. rewrite backup_database_run. split; [|auto].
  repeat constructor. apply P_manage. reflexivity.
Qed.

End ManageCommands.

Section ResetDataFrom.

Variable c : Conf.
Variable w : World.

Lemma reset_data_from_manage_only self other_env :
  declines w (copy_question self other_env) ->
  satisfies (reset_data_from c w self other_env) manage_only (fun _ => True).
Proof.
  intros Hd.
  assert (Hm : forall cd cmd, String.prefix "./manage.py " cmd = true ->
                              manage_only (EvRun cd cmd))
    by (intros cd cmd H d cmd' E; congruence).
  assert (Hp : forall msg, manage_only (EvPrint msg))
    by (intros msg d cmd E; discriminate).
  assert (Hq : forall t d, manage_only (EvPrompt t d))
    by (intros t d d' cmd E; discriminate).
  unfold reset_data_from.
  apply sat_bind with (Q1 := fun _ => True); [apply sat_yes, Hq|].
  intros [|] _; simpl negb; cbv iota; [|apply sat_print, Hp].
  apply sat_bind with (Q1 := fun _ => True); [apply sat_clear_cache; auto|].
  intros _ _.
  apply sat_bind with (Q1 := fun _ => True); [apply sat_backup_database; auto|].
  intros db_file _.
  apply sat_bind with (Q1 := fun _ => True); [apply sat_clear_database; auto|].
  intros _ _.
  apply sat_bind with (Q1 := fun _ => True);
    [apply sat_load_database_from; auto|].
  intros _ _.
  apply sat_bind with (Q1 := fun b => b = false);
    [apply sat_yes_declined; [apply Hq | exact Hd]|].
  intros b ->. simpl negb. cbv iota. apply sat_print, Hp.
Qed.

Lemma manage_not_swap other_env cmd :
  String.prefix "./manage.py " cmd = true ->
  ~ In cmd (uploads_swap_cmds c other_env).
Proof.
  intros H [E|[E|[E|[]]]]; subst cmd; discriminate.
Qed.

End ResetDataFrom.

(** ** Runs in which every remote command returns *)

Section Returning.

Variable c : Conf.
Variable w : World.
Hypothesis Hret : runs_return w.

Lemma yes_answers question b cd h :
  answers w question b ->
  _yes w question cd h = (Ok b, [EvPrompt (question ++ " (y/n)") "n"]).
Proof. intros H. rewrite yes_run, H. reflexivity. Qed.

Lemma accepts_answers question : accepts w question -> answers w question true.
Proof. intros H h. rewrite H. reflexivity. Qed.

Lemma clear_cache_returns self cd h :
  clear_cache c w self cd h = (Ok tt, cache_events c cd self).
Proof.
  rewrite clear_cache_run. unfold cache_events.
  destruct (conf_truthy (CACHE_CLEAR_MODELS c)); [|reflexivity].
  rewrite ran_ok by exact Hret. reflexivity.
Qed.

Lemma backup_uploads_returns self cd h :
  backup_uploads c w self cd h =
  (Ok (uploads_backup_dir c self), [EvRun cd (rdiff_backup_cmd c self)]).
Proof.
  rewrite backup_uploads_run. specialize (Hret h cd (rdiff_backup_cmd c self)).
  destruct (run_reply w h cd _); [reflexivity | congruence].
Qed.

Lemma three_runs_return p a b d cd h :
  fab_cd p (fab_run w a ;; fab_run w b ;; fab_run w d ;; ret tt) cd h =
  (Ok tt, map (EvRun (cd ++ [p])%list) [a; b; d]).
Proof.
  unfold fab_cd, bind, fab_run, ret.
  repeat match goal with
  | |- context [run_reply w ?h ?cd ?cmd] =>
      let E := fresh "E" in
      destruct (run_reply w h cd cmd) eqn:E;
      [cbv beta iota | exfalso; exact (Hret _ _ _ E)]
  end.
  reflexivity.
Qed.

(** The whole trace of [reset_data_from] when both questions are accepted
    and the backup output passes the check. *)
Lemma reset_data_from_accepted self other_env r cd h :
  backup_answers c w other_env r ->
  backup_accepted r ->
  accepts w (reset_question self other_env) ->
  accepts w (copy_question self other_env) ->
  reset_data_from c w self other_env cd h =
  (Ok tt,
   ([EvPrompt (reset_question self other_env ++ " (y/n)") "n"]
    ++ cache_events c cd self
    ++ [EvRun (cd ++ [projdir c other_env]) (db_backup_cmd c other_env);
        EvRun (cd ++ [projdir c self]) "./manage.py db_clear --noinput";
        EvRun (cd ++ [projdir c self])
          (db_load_cmd (backup_file_of (output r)));
        EvPrompt (copy_question self other_env ++ " (y/n)") "n"]
    ++ map (EvRun (cd ++ [projdir c self]))
         (uploads_swap_cmds c other_env))%list).
Proof.
  intros Hb Hacc H1 H2.
  unfold reset_data_from.
  etransitivity.
  { eapply bind_ok; [apply yes_accepted, H1|]. simpl negb. cbv iota.
    eapply bind_ok; [apply clear_cache_returns|].
    eapply bind_ok; [apply backup_database_accepted; [apply Hb | exact Hacc]|].
    eapply bind_ok; [rewrite clear_database_run; apply ran_ok, Hret|].
    eapply bind_ok; [rewrite load_database_from_run; apply ran_ok, Hret|].
    eapply bind_ok; [apply yes_accepted, H2|]. simpl negb. cbv iota zeta.
    apply three_runs_return. }
  reflexivity.
Qed.

End Returning.

(** ** [deploy] *)

Section Deploy.

Variable c : Conf.
Variable w : World.
Hypothesis Hret : runs_return w.

Lemma deploy_stage_run r h :
  backup_answers c w (live_env c) r ->
  backup_accepted r ->
  (forall q, accepts w q) ->
  deploy c w "stage" [] h =
  (Ok tt,
   ([EvRun [srcdir c (stage_env c)] "git pull";
     EvPrompt (reset_question (stage_env c) (live_env c) ++ " (y/n)") "n"]
    ++ cache_events c [] (stage_env c)
    ++ [EvRun [projdir c (live_env c)] (db_backup_cmd c (live_env c));
        EvRun [projdir c (stage_env c)] "./manage.py db_clear --noinput";
        EvRun [projdir c (stage_env c)]
          (db_load_cmd (backup_file_of (output r)));
        EvPrompt (copy_question (stage_env c) (live_env c) ++ " (y/n)") "n"]
    ++ map (EvRun [projdir c (stage_env c)])
         (uploads_swap_cmds c (live_env c))
    ++ [EvRun [projdir c (stage_env c)] "./manage.py migrate";
        EvRun [srcdir c (stage_env c)] "touch app.wsgi"])%list).
Proof.
  intros Hb Hacc Hyes. unfold deploy.
  etransitivity.
  { eapply bind_ok; [reflexivity|].
    eapply bind_ok; [rewrite pull_updates_run; apply ran_ok, Hret|].
    change (String.eqb "stage" "stage") with true. cbv iota.
    eapply bind_ok.
    { eapply bind_ok; [reflexivity|].
      apply (reset_data_from_accepted c w Hret _ _ r); auto. }
    eapply bind_ok; [rewrite migrate_database_run; apply ran_ok, Hret|].
    rewrite reload_wsgi_run. apply ran_ok, Hret. }
  simpl. rewrite <- !app_assoc. reflexivity.
Qed.

Lemma remote_app l1 l2 : remote (l1 ++ l2) = (remote l1 ++ remote l2)%list.
Proof. apply filter_app. Qed.

Lemma remote_cache_events self :
  remote (cache_events c [] self) =
  if conf_truthy (CACHE_CLEAR_MODELS c) then step_cache_clear c self else [].
Proof.
  unfold cache_events. destruct (conf_truthy (CACHE_CLEAR_MODELS c));
    reflexivity.
Qed.

(** C3 (amended). Deploying [stage] with every question accepted, every
    remote command returning and the backup output accepted ends normally,
    and the remote commands issued are exactly, in order: source pull,
    cache clear (only when [CACHE_CLEAR_MODELS] is a non-empty string),
    backup of the live database, clear of the stage database, load of that
    backup into the stage database, upload-directory rename, copy and
    cleanup, migration, reload: eight steps when [CACHE_CLEAR_MODELS] is
    set, and the same seven without the cache clear when it is not. *)
Theorem deploy_stage_steps (r : RunResult) (h : list Event) :
  backup_answers c w (live_env c) r ->
  backup_accepted r ->
  (forall q, accepts w q) ->
  let steps :=
    if conf_truthy (CACHE_CLEAR_MODELS c)
    then stage_steps c (backup_file_of (output r))
    else stage_steps_no_cache c (backup_file_of (output r)) in
  fst (deploy c w "stage" [] h) = Ok tt /\
  remote (snd (deploy c w "stage" [] h)) = List.concat steps /\
  List.length steps =
    (if conf_truthy (CACHE_CLEAR_MODELS c) then 8%nat else 7%nat).
Proof.
  intros Hb Hacc Hyes steps.
  rewrite (deploy_stage_run r h Hb Hacc Hyes).
  split; [reflexivity|]. subst steps. simpl snd.
  change (remote (?a :: ?b :: ?l)) with (a :: remote l).
  rewrite remote_app, remote_cache_events.
  destruct (conf_truthy (CACHE_CLEAR_MODELS c)); split; reflexivity.
Qed.

Lemma maybe_backup_database (a : bool) env r cd h :
  (a = true -> backup_answers c w env r /\ backup_accepted r) ->
  (if a then backup_database c w env ;; ret tt else ret tt) cd h =
  (Ok tt,
   if a then [EvRun (cd ++ [projdir c env])%list (db_backup_cmd c env)]
   else []).
Proof.
  intros Hbk. destruct a; [|reflexivity].
  destruct (Hbk eq_refl) as [H1 H2].
  unfold bind. rewrite (backup_database_accepted c w env cd h r (H1 _ _) H2).
  reflexivity.
Qed.

Lemma maybe_backup_uploads (b : bool) env cd h :
  (if b then backup_uploads c w env ;; ret tt else ret tt) cd h =
  (Ok tt, if b then [EvRun cd (rdiff_backup_cmd c env)] else []).
Proof.
  destruct b; [|reflexivity].
  unfold bind. rewrite (backup_uploads_returns c w Hret). reflexivity.
Qed.

Lemma deploy_live_run (a b : bool) r h :
  answers w "Backup dabase?" a ->
  answers w "Backup uploads?" b ->
  (a = true -> backup_answers c w (live_env c) r /\ backup_accepted r) ->
  deploy c w "live" [] h =
  (Ok tt,
   ([EvRun [srcdir c (live_env c)] "git pull";
     EvPrompt "Backup dabase? (y/n)" "n"]
    ++ (if a then step_backup c (live_env c) else [])
    ++ [EvPrompt "Backup uploads? (y/n)" "n"]
    ++ (if b then step_backup_uploads c (live_env c) else [])
    ++ [EvRun [projdir c (live_env c)] "./manage.py migrate";
        EvRun [srcdir c (live_env c)] "touch app.wsgi"])%list).
Proof.
  intros Ha Hb Hbk. unfold deploy.
  etransitivity.
  { eapply bind_ok; [reflexivity|].
    eapply bind_ok; [rewrite pull_updates_run; apply ran_ok, Hret|].
    change (String.eqb "live" "stage") with false.
    change (String.eqb "live" "live") with true. cbv iota.
    eapply bind_ok.
    { eapply bind_ok; [apply yes_answers, Ha|].
      eapply bind_ok; [apply (maybe_backup_database a _ r), Hbk|].
      eapply bind_ok; [apply yes_answers, Hb|].
      apply maybe_backup_uploads. }
    eapply bind_ok; [rewrite migrate_database_run; apply ran_ok, Hret|].
    rewrite reload_wsgi_run. apply ran_ok, Hret. }
  simpl. rewrite <- !app_assoc. reflexivity.
Qed.

(** C4. Deploying [live] with both backup questions declined issues
    exactly pull, migrate, reload: three steps and no backup.  The two
    questions are independent: whatever the two answers, the database
    backup is taken exactly when the first is accepted and the uploads
    backup exactly when the second is, each with or without the other. *)
Theorem deploy_live_steps (a b : bool) (r : RunResult) (h : list Event) :
  answers w "Backup dabase?" a ->
  answers w "Backup uploads?" b ->
  (a = true -> backup_answers c w (live_env c) r /\ backup_accepted r) ->
  fst (deploy c w "live" [] h) = Ok tt /\
  remote (snd (deploy c w "live" [] h)) = List.concat (live_steps c a b) /\
  (if a || b then True
   else remote (snd (deploy c w "live" [] h)) =
          [EvRun [srcdir c (live_env c)] "git pull";
           EvRun [projdir c (live_env c)] "./manage.py migrate";
           EvRun [srcdir c (live_env c)] "touch app.wsgi"] /\
        List.length (live_steps c a b) = 3%nat).
Proof.
  intros Ha Hb Hbk.
  rewrite (deploy_live_run a b r h Ha Hb Hbk).
  split; [reflexivity|].
  destruct a, b; simpl; repeat split; reflexivity.
Qed.

End Deploy.

Lemma shop_world_returns answer : runs_return (shop_world answer).
Proof. intros h cd cmd. discriminate. Qed.

Lemma live_operator_returns a b : runs_return (live_operator a b).
Proof. intros h cd cmd. discriminate. Qed.

Lemma shop_backup_accepted : backup_accepted shop_backup_reply.
Proof. split; reflexivity. Qed.

Lemma deploy_stage_steps_witness :
  fst (deploy shop_conf (shop_world "y") "stage" [] []) = Ok tt /\
  remote (snd (deploy shop_conf (shop_world "y") "stage" [] [])) =
    List.concat (stage_steps shop_conf "/srv/shop/live/backups/db.sql") /\
  List.length (stage_steps shop_conf "/srv/shop/live/backups/db.sql") = 8%nat.
Proof.
  exact (deploy_stage_steps shop_conf (shop_world "y")
           (shop_world_returns "y") shop_backup_reply []
           (fun _ _ => eq_refl) shop_backup_accepted (fun _ _ => eq_refl)).
Defined.

(** C3, as worded, fails when [CACHE_CLEAR_MODELS] is [None]: every
    question is accepted and every command succeeds, yet no cache-clear
    command is sent, so the remote commands are not those of the eight
    steps. *)
Lemma deploy_stage_without_cache_models :
  ~ stage_deploy_claim shop_conf_no_cache (shop_world "y") []
      shop_backup_reply.
Proof.
  intros H.
  specialize (H (shop_world_returns "y") (fun _ _ => eq_refl)
                shop_backup_accepted (fun _ _ => eq_refl)).
  apply (f_equal (@List.length Event)) in H.
  vm_compute in H. discriminate.
Qed.

Lemma deploy_live_steps_witness :
  fst (deploy shop_conf (live_operator false false) "live" [] []) = Ok tt /\
  remote (snd (deploy shop_conf (live_operator false false) "live" [] [])) =
    [EvRun ["/srv/shop/live/src"] "git pull";
     EvRun ["/srv/shop/live/src/shop"] "./manage.py migrate";
     EvRun ["/srv/shop/live/src"] "touch app.wsgi"] /\
  remote (snd (deploy shop_conf (live_operator true false) "live" [] [])) =
    List.concat (live_steps shop_conf true false) /\
  remote (snd (deploy shop_conf (live_operator false true) "live" [] [])) =
    List.concat (live_steps shop_conf false true).
Proof.
  pose proof (deploy_live_steps shop_conf (live_operator false false)
                (live_operator_returns false false) false false
                shop_backup_reply []
                (fun _ => eq_refl) (fun _ => eq_refl)
                (fun E => False_ind _ (Bool.diff_false_true E))) as H00.
  pose proof (deploy_live_steps shop_conf (live_operator true false)
                (live_operator_returns true false) true false
                shop_backup_reply []
                (fun _ => eq_refl) (fun _ => eq_refl)
                (fun _ => conj (fun _ _ => eq_refl) shop_backup_accepted))
    as H10.
  pose proof (deploy_live_steps shop_conf (live_operator false true)
                (live_operator_returns false true) false true
                shop_backup_reply []
                (fun _ => eq_refl) (fun _ => eq_refl)
                (fun E => False_ind _ (Bool.diff_false_true E))) as H01.
  refine (conj (proj1 H00) (conj (proj1 (proj2 (proj2 H00)))
            (conj (proj1 (proj2 H10)) (proj1 (proj2 H01))))).
Defined.

(** C7. Resetting [stage] from [live] on the sample installation: the
    second question reads "Copy media files from 'stage' to 'live'?",
    naming the environment being reset as the origin, while the copy
    command that follows it runs in the stage project directory and copies
    the live upload directory into it.  The first question names the two
    environments the right way round. *)
Theorem copy_question_names_swapped :
  snd (reset_data_from shop_conf (shop_world "y") (stage_env shop_conf)
         (live_env shop_conf) [] []) =
  [EvPrompt "Reset database 'stage' content from 'live'? (y/n)" "n";
   EvPrint "Clearing cache";
   EvRun ["/srv/shop/stage/src/shop"] "./manage.py cache_clear shop.Item";
   EvRun ["/srv/shop/live/src/shop"]
     "./manage.py db_backup /srv/shop/live/backups/db_backup_shop_live";
   EvRun ["/srv/shop/stage/src/shop"] "./manage.py db_clear --noinput";
   EvRun ["/srv/shop/stage/src/shop"]
     "./manage.py db_load --noinput /srv/shop/live/backups/db.sql";
   EvPrompt "Copy media files from 'stage' to 'live'? (y/n)" "n";
   EvRun ["/srv/shop/stage/src/shop"] "mv media/uploads media/uploads.bak";
   EvRun ["/srv/shop/stage/src/shop"]
     "cp -a /srv/shop/live/src/shop/media/uploads media/uploads";
   EvRun ["/srv/shop/stage/src/shop"] "rm -r media/uploads.bak"].
Proof. vm_compute. reflexivity. Qed.

(** ** [fetch_data] *)

Lemma bind_step {A B} (m : M A) (k : A -> M B) cd h a e1 :
  m cd h = (Ok a, e1) ->
  bind m k cd h =
  (fst (k a cd (h ++ e1)%list), (e1 ++ snd (k a cd (h ++ e1)%list))%list).
Proof.
  intros Hm. unfold bind. rewrite Hm.
  destruct (k a cd (h ++ e1)%list). reflexivity.
Qed.

Section FetchData.

Variable c : Conf.
Variable w : World.
Variable rt : Runtime.

Lemma fetch_data_guard (variant : string) (cd : list string)
    (h : list Event) :
  List.length (env_hosts rt) <> 1%nat ->
  fetch_data c w rt variant cd h = single_host_abort.
Proof.
  intros H. unfold fetch_data.
  apply Nat.eqb_neq in H. rewrite H. reflexivity.
Qed.

Lemma backup_data_first_event env cd h :
  exists rest,
    snd (backup_data c w env cd h) =
    EvRun (cd ++ [projdir c env])%list (db_backup_cmd c env) :: rest.
Proof.
  unfold backup_data.
  destruct (bind_events (backup_database c w env)
              (fun db_backup_file =>
                 upload_backup_dir <- backup_uploads c w env ;;
                 ret (db_backup_file, upload_backup_dir)) cd h) as [rest E].
  rewrite E, backup_database_run. simpl. eauto.
Qed.

Lemma fetch_data_past_guard (variant : string) (cd : list string)
    (h : list Event) :
  List.length (env_hosts rt) = 1%nat ->
  fetch_data c w rt variant cd h <> single_host_abort.
Proof.
  intros H. unfold fetch_data, single_host_abort.
  apply Nat.eqb_eq in H. rewrite H. simpl negb. cbv iota.
  rewrite (bind_step _ _ cd h tt [] eq_refl). cbv zeta.
  unfold lookup_env. destruct (ENVIRONMENTS c variant) as [env|].
  - rewrite (bind_step _ _ cd _ env [] eq_refl).
    match goal with
    | |- context [bind (backup_data c w env) ?k cd ?h'] =>
        destruct (bind_events (backup_data c w env) k cd h') as [rest E];
        destruct (backup_data_first_event env cd h') as [rest' E'];
        rewrite E' in E
    end.
    intros Hbad. apply (f_equal snd) in Hbad. cbn [snd app] in Hbad, E.
    rewrite E in Hbad. discriminate.
  - rewrite bind_raise with (x := KeyError variant) (e1 := []);
      [discriminate | reflexivity].
Qed.

(** C5. With more than one host in [fab.env.hosts], [fetch_data] aborts
    with "Use this with a single host" and its trace is empty: no remote
    backup, no download, no local database command, no question. *)
Theorem fetch_data_many_hosts (variant : string) (cd : list string)
    (h : list Event) :
  (1 < List.length (env_hosts rt))%nat ->
  fetch_data c w rt variant cd h =
    (Raise (SystemExit "Use this with a single host"), []).
Proof. intros H. apply fetch_data_guard. lia. Qed.

(** C8. The guard of [fetch_data] is "exactly one host": the task aborts
    there, with an empty trace, if and only if the number of hosts differs
    from one; in particular it aborts when no host is configured. *)
Theorem fetch_data_exactly_one_host (variant : string) (cd : list string)
    (h : list Event) :
  (fetch_data c w rt variant cd h = single_host_abort <->
   List.length (env_hosts rt) <> 1%nat) /\
  (env_hosts rt = [] -> fetch_data c w rt variant cd h = single_host_abort).
Proof.
  split.
  - split.
    + intros H L. exact (fetch_data_past_guard variant cd h L H).
    + apply fetch_data_guard.
  - intros E. apply fetch_data_guard. rewrite E. discriminate.
Qed.

Lemma backup_data_returns env r cd h :
  runs_return w ->
  backup_answers c w env r ->
  backup_accepted r ->
  backup_data c w env cd h =
  (Ok (backup_file_of (output r), uploads_backup_dir c env),
   [EvRun (cd ++ [projdir c env])%list (db_backup_cmd c env);
    EvRun cd (rdiff_backup_cmd c env)]).
Proof.
  intros Hret Hb Hacc. unfold backup_data.
  etransitivity.
  { eapply bind_ok; [apply backup_database_accepted; [apply Hb | exact Hacc]|].
    eapply bind_ok; [apply backup_uploads_returns, Hret | reflexivity]. }
  reflexivity.
Qed.

Lemma bind_starts {A B} (m : M A) (k : A -> M B) cd h a e1 p :
  m cd h = (Ok a, e1) ->
  starts_with (snd (k a cd (h ++ e1)%list)) p ->
  starts_with (snd (bind m k cd h)) (e1 ++ p).
Proof.
  intros Hm [rest Hk]. rewrite (bind_step _ _ _ _ _ _ Hm). simpl snd.
  exists rest. rewrite Hk. apply app_assoc.
Qed.

Lemma bind_starts_first {A B} (m : M A) (k : A -> M B) cd h :
  starts_with (snd (bind m k cd h)) (snd (m cd h)).
Proof. apply bind_events. Qed.

(** Up to its first question [fetch_data] does not depend on any answer. *)
Lemma fetch_data_upto_question variant env r h :
  List.length (env_hosts rt) = 1%nat ->
  ENVIRONMENTS c variant = Some env ->
  runs_return w -> gets_return w ->
  backup_answers c w env r ->
  backup_accepted r ->
  starts_with (snd (fetch_data c w rt variant [] h))
    (fetched_before_asking c rt env (backup_file_of (output r))
     ++ [EvPrompt (fetch_question variant ++ " (y/n)") "n"]).
Proof.
  intros Hone Henv Hret Hget Hb Hacc.
  unfold fetch_data.
  apply Nat.eqb_eq in Hone. rewrite Hone. simpl negb. cbv iota.
  unfold lookup_env. rewrite Henv.
  apply (bind_starts _ _ _ _ tt [] _ eq_refl). cbv beta zeta.
  apply (bind_starts _ _ _ _ env [] _ eq_refl).
  apply (bind_starts _ _ _ _ _ _ [_; _]
           (backup_data_returns env r [] _ Hret Hb Hacc)).
  cbv beta zeta. unfold fst at 1 2 3.
  eapply (bind_starts _ _ _ _ tt [_] [_]).
  { unfold fab_get. rewrite Hget. reflexivity. }
  match goal with
  | |- starts_with (snd (bind ?m ?k ?cd ?h')) _ =>
      pose proof (bind_starts_first m k cd h') as S
  end.
  rewrite yes_run in S. exact S.
Qed.

Lemma fetch_data_reset_declined variant env r h :
  List.length (env_hosts rt) = 1%nat ->
  ENVIRONMENTS c variant = Some env ->
  runs_return w -> gets_return w ->
  backup_answers c w env r ->
  backup_accepted r ->
  declines w (fetch_question variant) ->
  fetch_data c w rt variant [] h =
  (Ok tt,
   (fetched_before_asking c rt env (backup_file_of (output r))
    ++ [EvPrompt (fetch_question variant ++ " (y/n)") "n"])%list).
Proof.
  intros Hone Henv Hret Hget Hb Hacc Hd.
  unfold fetch_data.
  apply Nat.eqb_eq in Hone. rewrite Hone. simpl negb. cbv iota.
  unfold lookup_env. rewrite Henv.
  etransitivity.
  { eapply bind_ok; [reflexivity|]. cbv beta zeta.
    eapply bind_ok; [reflexivity|].
    eapply bind_ok; [apply (backup_data_returns env r [] _ Hret Hb Hacc)|].
    cbv beta zeta. unfold fst at 1 2 3.
    eapply bind_ok; [unfold fab_get; rewrite Hget; reflexivity|].
    eapply bind_ok; [apply yes_declined, Hd | reflexivity]. }
  reflexivity.
Qed.

(** Declining the reset keeps every run of [fetch_data] away from the
    local machine, whatever the remote host answers. *)
Lemma fetch_data_nothing_local variant :
  declines w (fetch_question variant) ->
  satisfies (fetch_data c w rt variant) nothing_local (fun _ => True).
Proof.
  intros Hd.
  assert (Hr : forall cd cmd, String.prefix "./manage.py " cmd = true ->
                              nothing_local (EvRun cd cmd))
    by (intros; exact I).
  assert (Hp : forall msg, nothing_local (EvPrint msg)) by (intros; exact I).
  unfold fetch_data.
  apply sat_bind with (Q1 := fun _ => True).
  { destruct (negb _); [apply sat_raise | apply sat_ret; exact I]. }
  intros _ _. cbv zeta.
  apply sat_bind with (Q1 := fun _ => True).
  { unfold lookup_env. destruct (ENVIRONMENTS c variant);
      [apply sat_ret; exact I | apply sat_raise]. }
  intros env _.
  apply sat_bind with (Q1 := fun _ => True).
  { unfold backup_data.
    apply sat_bind with (Q1 := fun _ => True);
      [apply sat_backup_database; assumption|].
    intros db _.
    apply sat_bind with (Q1 := fun _ => True); [|intros; apply sat_ret; exact I].
    unfold backup_uploads.
    apply sat_bind with (Q1 := fun _ => True);
      [apply sat_run; intros; exact I | intros; apply sat_ret; exact I]. }
  intros backups _.
  apply sat_bind with (Q1 := fun _ => True); [apply sat_get; exact I|].
  intros _ _.
  apply sat_bind with (Q1 := fun b => b = false).
  { apply sat_yes_declined; [|exact Hd]. unfold fetch_question. discriminate. }
  intros b ->. apply sat_ret. exact I.
Qed.

(** C10. The two questions of [fetch_data] are not independent.  If the
    operator declines the reset of the local database, then in every run
    no local command is issued and the question about the uploads is never
    asked, so uploads are never fetched without a database reset.  And
    when the task reaches its first question (one host, a known variant,
    the remote commands and the download returning, the backup output
    accepted), both remote backups and the download of the database dump
    have already happened, whatever the operator answers to either
    question; with the reset declined they are all the task did, and it
    returns. *)
Theorem fetch_data_prompts_dependent (variant : string) (h : list Event) :
  (declines w (fetch_question variant) ->
   Forall nothing_local (snd (fetch_data c w rt variant [] h))) /\
  (forall env r,
     List.length (env_hosts rt) = 1%nat ->
     ENVIRONMENTS c variant = Some env ->
     runs_return w -> gets_return w ->
     backup_answers c w env r ->
     backup_accepted r ->
     let before :=
       fetched_before_asking c rt env (backup_file_of (output r)) in
     let asked := EvPrompt (fetch_question variant ++ " (y/n)") "n" in
     starts_with (snd (fetch_data c w rt variant [] h)) (before ++ [asked]) /\
     (declines w (fetch_question variant) ->
      fetch_data c w rt variant [] h = (Ok tt, (before ++ [asked])%list))).
Proof.
  split.
  - intros Hd. apply (fetch_data_nothing_local variant Hd [] h).
  - intros env r Hone Henv Hret Hget Hb Hacc before asked. split.
    + apply fetch_data_upto_question; assumption.
    + intros Hd. apply fetch_data_reset_declined; assumption.
Qed.

End FetchData.

Lemma fetch_data_many_hosts_witness :
  fetch_data shop_conf (shop_world "y")
    (shop_runtime ["dev@alpha:2222"; "dev@beta"]) "live" [] [] =
  (Raise (SystemExit "Use this with a single host"), []).
Proof.
  apply (fetch_data_many_hosts shop_conf (shop_world "y")
           (shop_runtime ["dev@alpha:2222"; "dev@beta"]) "live" [] []).
  simpl. lia.
Defined.

Lemma fetch_data_exactly_one_host_witness :
  fetch_data shop_conf (shop_world "y") (shop_runtime []) "live" [] [] =
  single_host_abort.
Proof.
  exact (proj2 (fetch_data_exactly_one_host shop_conf (shop_world "y")
                  (shop_runtime []) "live" [] []) eq_refl).
Defined.

Lemma fetch_data_prompts_dependent_witness :
  fetch_data shop_conf (shop_world "n") (shop_runtime ["dev@alpha:2222"])
    "live" [] [] =
  (Ok tt,
   [EvRun ["/srv/shop/live/src/shop"]
      "./manage.py db_backup /srv/shop/live/backups/db_backup_shop_live";
    EvRun []
      "rdiff-backup /srv/shop/live/src/shop/media/uploads /srv/shop/live/backups/shop_live_uploads";
    EvGet "/srv/shop/live/backups/db.sql" "/tmp/db.sql";
    EvPrompt "Reset local database content from 'live'? (y/n)" "n"]) /\
  Forall nothing_local
    (snd (fetch_data shop_conf (shop_world "n")
            (shop_runtime ["dev@alpha:2222"]) "live" [] [])).
Proof.
  assert (Hd : declines (shop_world "n") (fetch_question "live"))
    by (intros h; vm_compute; discriminate).
  pose proof (fetch_data_prompts_dependent shop_conf (shop_world "n")
                (shop_runtime ["dev@alpha:2222"]) "live" []) as [H1 H2].
  split.
  - exact (proj2 (H2 (live_env shop_conf) shop_backup_reply
                    eq_refl eq_refl (shop_world_returns "n")
                    (fun _ _ _ => eq_refl) (fun _ _ => eq_refl)
                    shop_backup_accepted) Hd).
  - exact (H1 Hd).
Defined.

(** * Further properties of the workflows *)

(** ** Rules for [satisfies_at] *)

Section SatisfiesAt.

Variable w : World.
Variable P : Event -> Prop.

Lemma sat_at_of_sat {A} cd (m : M A) (Q : A -> Prop) :
  satisfies m P Q -> satisfies_at cd m P Q.
Proof. intros H h. apply H. Qed.

Lemma sat_at_bind {A B} cd (m : M A) (k : A -> M B) (Q1 : A -> Prop)
    (Q2 : B -> Prop) :
  satisfies_at cd m P Q1 ->
  (forall a, Q1 a -> satisfies_at cd (k a) P Q2) ->
  satisfies_at cd (bind m k) P Q2.
Proof.
  intros Hm Hk h. destruct (Hm h) as [He Hv]. unfold bind.
  destruct (m cd h) as [[a|x] e1]; simpl in *.
  - destruct (Hk a (Hv a eq_refl) (h ++ e1)%list) as [He2 Hv2].
    destruct (k a cd (h ++ e1)%list) as [r e2]; simpl in *.
    split; [apply Forall_app; split; assumption | exact Hv2].
  - split; [exact He | discriminate].
Qed.

Lemma sat_at_cd {A} cd (p : string) (m : M A) (Q : A -> Prop) :
  satisfies_at (cd ++ [p]) m P Q -> satisfies_at cd (fab_cd p m) P Q.
Proof. intros Hm h. apply Hm. Qed.

Lemma sat_at_run cd (cmd : string) :
  P (EvRun cd cmd) -> satisfies_at cd (fab_run w cmd) P (fun _ => True).
Proof.
  intros H h. unfold fab_run.
  destruct (run_reply w h cd cmd); (split; [repeat constructor; apply H | auto]).
Qed.

(** A method that is one command in one directory. *)
Lemma sat_at_method cd (p cmd : string) :
  P (EvRun (cd ++ [p]) cmd) ->
  satisfies_at cd (fab_cd p (fab_run w cmd ;; ret tt)) P (fun _ => True).
Proof.
  intros H. apply sat_at_cd.
  apply sat_at_bind with (Q1 := fun _ => True); [apply sat_at_run, H|].
  intros _ _. apply sat_at_of_sat, sat_ret. exact I.
Qed.

End SatisfiesAt.

Section ScopedMethods.

Variable c : Conf.
Variable w : World.
Variable P : Event -> Prop.
Hypothesis P_print : forall msg, P (EvPrint msg).
Hypothesis P_prompt : forall t d, P (EvPrompt t d).

Lemma sat_at_clear_cache cd self :
  P (EvRun (cd ++ [projdir c self]) (cache_clear_cmd c)) ->
  satisfies_at cd (clear_cache c w self) P (fun _ => True).
Proof.
  intros H. unfold clear_cache.
  destruct (conf_truthy (CACHE_CLEAR_MODELS c)).
  - apply sat_at_bind with (Q1 := fun _ => True);
      [apply sat_at_of_sat, sat_print, P_print|].
    intros _ _. apply sat_at_method. exact H.
  - apply sat_at_of_sat, sat_print, P_print.
Qed.

(** [backup_database] sends its one command, and returns only on an
    accepted reply. *)
Lemma sat_at_backup_database cd self :
  P (EvRun (cd ++ [projdir c self]) (db_backup_cmd c self)) ->
  satisfies_at cd (backup_database c w self) P
    (fun v => exists h r,
       run_reply w h (cd ++ [projdir c self])%list (db_backup_cmd c self)
         = Some r /\ backup_accepted r /\ v = backup_file_of (output r)).
Proof.
  intros H h. rewrite backup_database_run. split.
  - repeat constructor. exact H.
  - simpl fst.
    destruct (run_reply w h _ _) as [r|] eqn:E; [|discriminate].
    destruct (succeeded r) eqn:Hs; [|discriminate].
    destruct (0 <? PyStr.find (output r) backup_marker)%Z eqn:Hm;
      [|discriminate].
    simpl andb. cbv iota. apply Z.ltb_lt in Hm.
    intros a Ha. exists h, r. split; [exact E|].
    split; [split; assumption|].
    unfold backup_file_of. revert Ha.
    destruct (PyStr.split1 (output r) ":"%char) as [|x [|y l]]; simpl;
      try discriminate; congruence.
Qed.

Lemma sat_at_backup_uploads cd self :
  P (EvRun cd (rdiff_backup_cmd c self)) ->
  satisfies_at cd (backup_uploads c w self) P
    (fun v => v = uploads_backup_dir c self).
Proof.
  intros H h. rewrite backup_uploads_run. split.
  - repeat constructor. exact H.
  - simpl fst. destruct (run_reply w h cd _); [|discriminate].
    intros a Ha. congruence.
Qed.

Lemma sat_at_yes cd question :
  satisfies_at cd (_yes w question) P (fun _ => True).
Proof. apply sat_at_of_sat, sat_yes, P_prompt. Qed.

End ScopedMethods.

(** ** Unknown variants *)

Section UnknownVariant.

Variable c : Conf.
Variable w : World.
Variable rt : Runtime.

Lemma ENVIRONMENTS_none variant :
  ENVIRONMENTS c variant = None <-> variant <> "stage" /\ variant <> "live".
Proof.
  unfold ENVIRONMENTS.
  destruct (String.eqb_spec variant "stage") as [->|Hs].
  - split; [discriminate | intros [H _]; congruence].
  - destruct (String.eqb_spec variant "live") as [->|Hl].
    + split; [discriminate | intros [_ H]; congruence].
    + split; auto.
Qed.

(** X1. [deploy] and the [clear_cache] task look the variant up before
    anything else: for a variant that is neither [stage] nor [live] they
    stop with a [KeyError] and an empty trace (nothing is pulled). *)
Theorem deploy_unknown_variant (variant : string) (cd : list string)
    (h : list Event) :
  variant <> "stage" -> variant <> "live" ->
  deploy c w variant cd h = (Raise (KeyError variant), []) /\
  clear_cache_task c w variant cd h = (Raise (KeyError variant), []).
Proof.
  intros Hs Hl.
  assert (E : ENVIRONMENTS c variant = None)
    by (apply ENVIRONMENTS_none; split; assumption).
  unfold deploy, clear_cache_task, lookup_env, bind. rewrite E.
  split; reflexivity.
Qed.

(** X2. [fetch_data] checks the host count first and the variant second:
    with exactly one host and a variant that is neither [stage] nor
    [live] it stops with a [KeyError] before any backup is taken, and
    with any other host count it is the host check that stops it,
    whatever the variant. *)
Theorem fetch_data_unknown_variant (variant : string) (cd : list string)
    (h : list Event) :
  variant <> "stage" -> variant <> "live" ->
  fetch_data c w rt variant cd h =
    if Nat.eqb (List.length (env_hosts rt)) 1
    then (Raise (KeyError variant), [])
    else single_host_abort.
Proof.
  intros Hs Hl.
  assert (E : ENVIRONMENTS c variant = None)
    by (apply ENVIRONMENTS_none; split; assumption).
  unfold fetch_data, lookup_env, bind.
  destruct (Nat.eqb (List.length (env_hosts rt)) 1); simpl negb; cbv iota.
  - unfold ret at 1. rewrite E. reflexivity.
  - reflexivity.
Qed.

End UnknownVariant.

Lemma deploy_unknown_variant_witness :
  deploy shop_conf (shop_world "y") "devel" [] [] =
    (Raise (KeyError "devel"), []) /\
  clear_cache_task shop_conf (shop_world "y") "devel" [] [] =
    (Raise (KeyError "devel"), []).
Proof.
  apply (deploy_unknown_variant shop_conf (shop_world "y") "devel" [] []);
    discriminate.
Defined.

Lemma fetch_data_unknown_variant_witness :
  fetch_data shop_conf (shop_world "y") (shop_runtime ["dev@alpha"])
    "devel" [] [] = (Raise (KeyError "devel"), []).
Proof.
  apply (fetch_data_unknown_variant shop_conf (shop_world "y")
           (shop_runtime ["dev@alpha"]) "devel" [] []); discriminate.
Defined.

(** ** Stage deployments that are declined half-way *)

Section StageDeclined.

Variable c : Conf.
Variable w : World.
Hypothesis Hret : runs_return w.

Lemma reset_data_from_reset_declined self other_env cd h :
  prompt_input w h (reset_question self other_env ++ " (y/n)") <> "y" ->
  reset_data_from c w self other_env cd h =
  (Ok tt, [EvPrompt (reset_question self other_env ++ " (y/n)") "n";
           EvPrint "Not resetting database content."]).
Proof.
  intros H. unfold reset_question in *. unfold reset_data_from, bind.
  rewrite (yes_declined w _ cd h H). reflexivity.
Qed.

Lemma reset_data_from_copy_declined self other_env r cd h :
  backup_answers c w other_env r ->
  backup_accepted r ->
  accepts w (reset_question self other_env) ->
  declines w (copy_question self other_env) ->
  reset_data_from c w self other_env cd h =
  (Ok tt,
   ([EvPrompt (reset_question self other_env ++ " (y/n)") "n"]
    ++ cache_events c cd self
    ++ [EvRun (cd ++ [projdir c other_env]) (db_backup_cmd c other_env);
        EvRun (cd ++ [projdir c self]) "./manage.py db_clear --noinput";
        EvRun (cd ++ [projdir c self])
          (db_load_cmd (backup_file_of (output r)));
        EvPrompt (copy_question self other_env ++ " (y/n)") "n";
        EvPrint "Not copying media files."])%list).
Proof.
  intros Hb Hacc H1 H2.
  unfold reset_data_from.
  etransitivity.
  { eapply bind_ok; [apply yes_accepted, H1|]. simpl negb. cbv iota.
    eapply bind_ok; [apply (clear_cache_returns c w Hret)|].
    eapply bind_ok; [apply backup_database_accepted; [apply Hb | exact Hacc]|].
    eapply bind_ok; [rewrite clear_database_run; apply ran_ok, Hret|].
    eapply bind_ok; [rewrite load_database_from_run; apply ran_ok, Hret|].
    eapply bind_ok; [apply yes_declined, H2|]. simpl negb. cbv iota.
    reflexivity. }
  reflexivity.
Qed.

(** X3. Declining the data reset does not stop a stage deployment: with
    every remote command returning, [deploy('stage')] pulls, asks, prints
    that nothing is reset, and still migrates the database and reloads
    the application; no backup is taken and nothing is cleared. *)
Theorem deploy_stage_reset_declined (h : list Event) :
  declines w (reset_question (stage_env c) (live_env c)) ->
  deploy c w "stage" [] h =
  (Ok tt,
   [EvRun [srcdir c (stage_env c)] "git pull";
    EvPrompt (reset_question (stage_env c) (live_env c) ++ " (y/n)") "n";
    EvPrint "Not resetting database content.";
    EvRun [projdir c (stage_env c)] "./manage.py migrate";
    EvRun [srcdir c (stage_env c)] "touch app.wsgi"]).
Proof.
  intros Hd. unfold deploy.
  etransitivity.
  { eapply bind_ok; [reflexivity|].
    eapply bind_ok; [rewrite pull_updates_run; apply ran_ok, Hret|].
    change (String.eqb "stage" "stage") with true. cbv iota.
    eapply bind_ok.
    { eapply bind_ok; [reflexivity|].
      apply reset_data_from_reset_declined, Hd. }
    eapply bind_ok; [rewrite migrate_database_run; apply ran_ok, Hret|].
    rewrite reload_wsgi_run. apply ran_ok, Hret. }
  reflexivity.
Qed.

(** X4. When the operator accepts the database reset but declines the
    copy of the media files, the stage database is still replaced by the
    live backup and the deployment still migrates and reloads; the three
    upload-directory commands are the only ones left out. *)
Theorem deploy_stage_copy_declined (r : RunResult) (h : list Event) :
  backup_answers c w (live_env c) r ->
  backup_accepted r ->
  accepts w (reset_question (stage_env c) (live_env c)) ->
  declines w (copy_question (stage_env c) (live_env c)) ->
  fst (deploy c w "stage" [] h) = Ok tt /\
  remote (snd (deploy c w "stage" [] h)) =
  (step_pull c (stage_env c)
   ++ (if conf_truthy (CACHE_CLEAR_MODELS c)
       then step_cache_clear c (stage_env c) else [])
   ++ step_backup c (live_env c)
   ++ step_clear c (stage_env c)
   ++ step_load c (stage_env c) (backup_file_of (output r))
   ++ step_migrate c (stage_env c)
   ++ step_reload c (stage_env c))%list.
Proof.
  intros Hb Hacc H1 H2.
  assert (E : deploy c w "stage" [] h =
    (Ok tt,
     ([EvRun [srcdir c (stage_env c)] "git pull";
       EvPrompt (reset_question (stage_env c) (live_env c) ++ " (y/n)") "n"]
      ++ cache_events c [] (stage_env c)
      ++ [EvRun [projdir c (live_env c)] (db_backup_cmd c (live_env c));
          EvRun [projdir c (stage_env c)] "./manage.py db_clear --noinput";
          EvRun [projdir c (stage_env c)]
            (db_load_cmd (backup_file_of (output r)));
          EvPrompt (copy_question (stage_env c) (live_env c) ++ " (y/n)") "n";
          EvPrint "Not copying media files.";
          EvRun [projdir c (stage_env c)] "./manage.py migrate";
          EvRun [srcdir c (stage_env c)] "touch app.wsgi"])%list)).
  { unfold deploy.
    etransitivity.
    { eapply bind_ok; [reflexivity|].
      eapply bind_ok; [rewrite pull_updates_run; apply ran_ok, Hret|].
      change (String.eqb "stage" "stage") with true. cbv iota.
      eapply bind_ok.
      { eapply bind_ok; [reflexivity|].
        apply (reset_data_from_copy_declined _ _ r); assumption. }
      eapply bind_ok; [rewrite migrate_database_run; apply ran_ok, Hret|].
      rewrite reload_wsgi_run. apply ran_ok, Hret. }
    simpl. rewrite <- !app_assoc. reflexivity. }
  rewrite E. split; [reflexivity|]. simpl snd.
  change (remote (?a :: ?b :: ?l)) with (a :: remote l).
  rewrite remote_app, remote_cache_events.
  destruct (conf_truthy (CACHE_CLEAR_MODELS c)); reflexivity.
Qed.

End StageDeclined.

Lemma deploy_stage_reset_declined_witness :
  remote (snd (deploy shop_conf (shop_world "n") "stage" [] [])) =
  [EvRun ["/srv/shop/stage/src"] "git pull";
   EvRun ["/srv/shop/stage/src/shop"] "./manage.py migrate";
   EvRun ["/srv/shop/stage/src"] "touch app.wsgi"].
Proof.
  rewrite (deploy_stage_reset_declined shop_conf (shop_world "n")
             (shop_world_returns "n") []).
  - reflexivity.
  - intros h. vm_compute. discriminate.
Defined.

Lemma deploy_stage_copy_declined_witness :
  fst (deploy shop_conf copy_declined_world "stage" [] []) = Ok tt /\
  remote (snd (deploy shop_conf copy_declined_world "stage" [] [])) =
  [EvRun ["/srv/shop/stage/src"] "git pull";
   EvRun ["/srv/shop/stage/src/shop"] "./manage.py cache_clear shop.Item";
   EvRun ["/srv/shop/live/src/shop"]
     "./manage.py db_backup /srv/shop/live/backups/db_backup_shop_live";
   EvRun ["/srv/shop/stage/src/shop"] "./manage.py db_clear --noinput";
   EvRun ["/srv/shop/stage/src/shop"]
     "./manage.py db_load --noinput /srv/shop/live/backups/db.sql";
   EvRun ["/srv/shop/stage/src/shop"] "./manage.py migrate";
   EvRun ["/srv/shop/stage/src"] "touch app.wsgi"].
Proof.
  refine (deploy_stage_copy_declined shop_conf copy_declined_world _
            shop_backup_reply [] (fun _ _ => eq_refl) shop_backup_accepted
            (fun _ => eq_refl) _).
  - intros h cd cmd. discriminate.
  - intros h. vm_compute. discriminate.
Defined.

(** ** What the workflows never do *)

Lemma bind_inv {A B} (m : M A) (k : A -> M B) cd h b :
  fst (bind m k cd h) = Ok b ->
  exists a e1, m cd h = (Ok a, e1) /\ fst (k a cd (h ++ e1)%list) = Ok b.
Proof.
  unfold bind. destruct (m cd h) as [[a|x] e1]; [|discriminate].
  destruct (k a cd (h ++ e1)%list) as [r e2] eqn:E. simpl.
  intros ->. exists a, e1. rewrite E. split; reflexivity.
Qed.

Section Never.

Variable c : Conf.
Variable w : World.

(** X5. [reset_data_from] never touches the target before it holds a
    backup of the source: in a world where no reply of the source's
    backup command passes the check, in every run the only remote
    commands are the cache clear and the backup attempt (no database
    clear, no load, no upload-directory command), and the method returns
    normally only when the operator declined the reset. *)
Theorem reset_data_from_needs_backup (self other_env : ProjectEnvironment)
    (cd : list string) (h : list Event) :
  backup_never_accepted c w other_env ->
  Forall (before_backup c other_env)
    (snd (reset_data_from c w self other_env cd h)) /\
  (fst (reset_data_from c w self other_env cd h) = Ok tt ->
   prompt_input w h (reset_question self other_env ++ " (y/n)") <> "y").
Proof.
  intros Hnever.
  assert (Hp : forall msg, before_backup c other_env (EvPrint msg))
    by (intros msg d cmd E; discriminate).
  assert (Hq : forall t d, before_backup c other_env (EvPrompt t d))
    by (intros t d d' cmd E; discriminate).
  assert (Hrun : forall d cmd,
            cmd = cache_clear_cmd c \/ cmd = db_backup_cmd c other_env ->
            before_backup c other_env (EvRun d cmd))
    by (intros d cmd H d' cmd' E; injection E as <- <-; exact H).
  assert (S : satisfies_at cd (reset_data_from c w self other_env)
                (before_backup c other_env)
                (fun _ => True)).
  { unfold reset_data_from.
    apply sat_at_bind with (Q1 := fun _ => True);
      [apply sat_at_yes; assumption|].
    intros [|] _; simpl negb; cbv iota.
    - apply sat_at_bind with (Q1 := fun _ => True);
        [apply sat_at_clear_cache; auto|].
      intros _ _.
      apply sat_at_bind with (Q1 := fun _ => False).
      + intros h'.
        destruct (sat_at_backup_database c w (before_backup c other_env) cd
                    other_env (Hrun _ _ (or_intror eq_refl)) h') as [He Hv].
        split; [exact He|].
        intros a Ha. destruct (Hv a Ha) as (h0 & r & Hr & Hacc & _).
        exact (Hnever _ _ _ Hr Hacc).
      + intros _ [].
    - apply sat_at_of_sat, sat_print, Hp. }
  split; [apply S|].
  intros Hok.
  destruct (String.eqb_spec
              (prompt_input w h (reset_question self other_env ++ " (y/n)"))
              "y") as [Hy|Hn]; [|exact Hn].
  exfalso. revert Hok.
  unfold reset_question in Hy. unfold reset_data_from.
  rewrite (bind_step _ _ _ _ _ _ (yes_accepted w _ cd h Hy)).
  simpl negb. cbv iota. simpl fst.
  intros Hok.
  apply bind_inv in Hok. destruct Hok as (u & e1 & _ & Hok).
  apply bind_inv in Hok. destruct Hok as (db & e2 & Hdb & _).
  match type of Hdb with
  | backup_database _ _ _ _ ?hh = _ =>
      destruct (sat_at_backup_database c w (before_backup c other_env) cd
                  other_env (Hrun _ _ (or_intror eq_refl)) hh)
        as [_ Hv]
  end.
  rewrite Hdb in Hv.
  destruct (Hv db eq_refl) as (h0 & r & Hr & Hacc & _).
  exact (Hnever _ _ _ Hr Hacc).
Qed.

End Never.

Lemma reset_data_from_needs_backup_witness :
  Forall (before_backup shop_conf (live_env shop_conf))
    (snd (reset_data_from shop_conf failing_backup_world
            (stage_env shop_conf) (live_env shop_conf) [] [])).
Proof.
  refine (proj1 (reset_data_from_needs_backup shop_conf failing_backup_world
            (stage_env shop_conf) (live_env shop_conf) [] [] _)).
  intros h cd r E [Hs _]. injection E as <-. discriminate.
Defined.

(** ** Where each task acts *)

Section TaskScopes.

Variable c : Conf.
Variable w : World.

Lemma sat_at_uploads_swap (P : Event -> Prop) cd p a b d :
  P (EvRun (cd ++ [p]) a) -> P (EvRun (cd ++ [p]) b) ->
  P (EvRun (cd ++ [p]) d) ->
  satisfies_at cd
    (fab_cd p (fab_run w a ;; fab_run w b ;; fab_run w d ;; ret tt))
    P (fun _ => True).
Proof.
  intros Ha Hb Hd. apply sat_at_cd.
  apply sat_at_bind with (Q1 := fun _ => True); [apply sat_at_run, Ha|].
  intros _ _.
  apply sat_at_bind with (Q1 := fun _ => True); [apply sat_at_run, Hb|].
  intros _ _.
  apply sat_at_bind with (Q1 := fun _ => True); [apply sat_at_run, Hd|].
  intros _ _. apply sat_at_of_sat, sat_ret. exact I.
Qed.

Lemma deploy_stage_in_scope (h : list Event) :
  Forall (stage_deploy_scope c) (snd (deploy c w "stage" [] h)).
Proof.
  assert (Hp : forall msg, stage_deploy_scope c (EvPrint msg))
    by (intros; exact I).
  assert (Hq : forall t d, stage_deploy_scope c (EvPrompt t d))
    by (intros; exact I).
  assert (Hsrc : forall cmd,
            stage_deploy_scope c (EvRun ([] ++ [srcdir c (stage_env c)]) cmd))
    by (intros; left; reflexivity).
  assert (Hprj : forall cmd,
            stage_deploy_scope c (EvRun ([] ++ [projdir c (stage_env c)]) cmd))
    by (intros; right; left; reflexivity).
  assert (Hlive : stage_deploy_scope c
            (EvRun ([] ++ [projdir c (live_env c)])
               (db_backup_cmd c (live_env c))))
    by (right; right; split; reflexivity).
  assert (S : satisfies_at [] (deploy c w "stage") (stage_deploy_scope c)
                (fun _ => True)); [|apply S].
  unfold deploy.
  apply sat_at_bind with (Q1 := fun env => env = stage_env c).
  { intros h'. split; [constructor|]. simpl. congruence. }
  intros env ->.
  apply sat_at_bind with (Q1 := fun _ => True);
    [apply sat_at_method, Hsrc|].
  intros _ _.
  change (String.eqb "stage" "stage") with true. cbv iota.
  apply sat_at_bind with (Q1 := fun _ => True).
  { apply sat_at_bind with (Q1 := fun env => env = live_env c).
    { intros h'. split; [constructor|]. simpl. congruence. }
    intros live ->. unfold reset_data_from.
    apply sat_at_bind with (Q1 := fun _ => True);
      [apply sat_at_yes; assumption|].
    intros [|] _; simpl negb; cbv iota;
      [|apply sat_at_of_sat, sat_print, Hp].
    apply sat_at_bind with (Q1 := fun _ => True);
      [apply sat_at_clear_cache; auto|].
    intros _ _.
    eapply sat_at_bind; [apply sat_at_backup_database, Hlive|].
    intros db _.
    apply sat_at_bind with (Q1 := fun _ => True);
      [apply sat_at_method, Hprj|].
    intros _ _.
    apply sat_at_bind with (Q1 := fun _ => True);
      [apply sat_at_method, Hprj|].
    intros _ _.
    apply sat_at_bind with (Q1 := fun _ => True);
      [apply sat_at_yes; assumption|].
    intros [|] _; simpl negb; cbv iota zeta;
      [|apply sat_at_of_sat, sat_print, Hp].
    apply sat_at_uploads_swap; apply Hprj. }
  intros _ _.
  apply sat_at_bind with (Q1 := fun _ => True);
    [apply sat_at_method, Hprj|].
  intros _ _. apply sat_at_method, Hsrc.
Qed.

(** X6. In every run of [deploy('stage')], whatever the remote host and
    the operator answer, each remote command is issued under [fab.cd] of
    the stage source directory path or of the stage project directory
    path, or it is the database backup, issued under [fab.cd] of the live
    project directory path; nothing is run locally and nothing is
    downloaded.  So when the live project directory path differs from
    both stage paths, the database backup is the only command issued
    under the live project directory path. *)
Theorem deploy_stage_scope (h : list Event) :
  Forall (stage_deploy_scope c) (snd (deploy c w "stage" [] h)) /\
  (projdir c (live_env c) <> projdir c (stage_env c) ->
   projdir c (live_env c) <> srcdir c (stage_env c) ->
   Forall (live_dir_only_backup c) (snd (deploy c w "stage" [] h))).
Proof.
  pose proof (deploy_stage_in_scope h) as Hall.
  split; [exact Hall|].
  intros Hprj Hsrc. revert Hall. apply Forall_impl.
  intros [d cmd| | | |]; simpl; auto.
  intros [E|[E|[_ E]]] Hd; [| |exact E]; subst d;
    injection Hd as Hd; congruence.
Qed.

(** X7. In every run of [deploy('live')], whatever the remote host and
    the operator answer, the only remote commands are the pull, the
    database backup, the uploads backup, the migration and the reload of
    the live environment: a live deployment never clears or loads a
    database and never renames, copies or deletes the upload directory;
    nothing is run locally. *)
Theorem deploy_live_scope (h : list Event) :
  Forall (live_deploy_scope c) (snd (deploy c w "live" [] h)).
Proof.
  assert (Hp : forall msg, live_deploy_scope c (EvPrint msg))
    by (intros; exact I).
  assert (Hq : forall t d, live_deploy_scope c (EvPrompt t d))
    by (intros; exact I).
  assert (S : satisfies_at [] (deploy c w "live") (live_deploy_scope c)
                (fun _ => True)); [|apply S].
  unfold deploy.
  apply sat_at_bind with (Q1 := fun env => env = live_env c).
  { intros h'. split; [constructor|]. simpl. congruence. }
  intros env ->.
  apply sat_at_bind with (Q1 := fun _ => True).
  { apply sat_at_method. simpl. auto. }
  intros _ _.
  change (String.eqb "live" "stage") with false.
  change (String.eqb "live" "live") with true. cbv iota.
  apply sat_at_bind with (Q1 := fun _ => True).
  { apply sat_at_bind with (Q1 := fun _ => True);
      [apply sat_at_yes; assumption|].
    intros yes _.
    apply sat_at_bind with (Q1 := fun _ => True).
    { destruct yes; [|apply sat_at_of_sat, sat_ret; exact I].
      eapply sat_at_bind;
        [apply sat_at_backup_database; simpl; auto|].
      intros _ _. apply sat_at_of_sat, sat_ret. exact I. }
    intros _ _.
    apply sat_at_bind with (Q1 := fun _ => True);
      [apply sat_at_yes; assumption|].
    intros yes2 _.
    destruct yes2; [|apply sat_at_of_sat, sat_ret; exact I].
    eapply sat_at_bind;
      [apply sat_at_backup_uploads; simpl; auto|].
    intros _ _. apply sat_at_of_sat, sat_ret. exact I. }
  intros _ _.
  apply sat_at_bind with (Q1 := fun _ => True).
  { apply sat_at_method. simpl. auto 6. }
  intros _ _. apply sat_at_method. simpl. auto 6.
Qed.

End TaskScopes.

Lemma deploy_stage_scope_witness :
  Forall (live_dir_only_backup shop_conf)
    (snd (deploy shop_conf (shop_world "y") "stage" [] [])).
Proof.
  refine (proj2 (deploy_stage_scope shop_conf (shop_world "y") []) _ _);
    vm_compute; discriminate.
Defined.

(** ** Failed backups and the fetch workflow *)

Section LiveBackupRejected.

Variable c : Conf.
Variable w : World.
Hypothesis Hret : runs_return w.

(** X8. A database backup that fails its check stops a live deployment
    on the spot: when the operator asks for the backup and the backup
    command's reply is rejected (failure reported, or marker not found at
    a positive index), [deploy('live')] ends with an assertion error
    right after the backup command; the uploads question is not asked and
    neither the migration nor the reload is run. *)
Theorem deploy_live_backup_rejected (r : RunResult) (h : list Event) :
  answers w "Backup dabase?" true ->
  backup_answers c w (live_env c) r ->
  ~ backup_accepted r ->
  deploy c w "live" [] h =
  (Raise AssertionError,
   [EvRun [srcdir c (live_env c)] "git pull";
    EvPrompt "Backup dabase? (y/n)" "n";
    EvRun [projdir c (live_env c)] (db_backup_cmd c (live_env c))]).
Proof.
  intros Ha Hb Hrej. unfold deploy.
  etransitivity.
  { eapply bind_ok; [reflexivity|].
    eapply bind_ok; [rewrite pull_updates_run; apply ran_ok, Hret|].
    change (String.eqb "live" "stage") with false.
    change (String.eqb "live" "live") with true. cbv iota.
    apply bind_raise.
    eapply bind_ok; [apply (yes_answers w), Ha|].
    apply bind_raise. apply bind_raise.
    apply backup_database_rejected with (r := r); [apply Hb | exact Hrej]. }
  reflexivity.
Qed.

End LiveBackupRejected.

Lemma failing_backup_world_returns : runs_return failing_backup_world.
Proof. intros h cd cmd. discriminate. Qed.

Lemma deploy_live_backup_rejected_witness :
  deploy shop_conf failing_backup_world "live" [] [] =
  (Raise AssertionError,
   [EvRun ["/srv/shop/live/src"] "git pull";
    EvPrompt "Backup dabase? (y/n)" "n";
    EvRun ["/srv/shop/live/src/shop"]
      "./manage.py db_backup /srv/shop/live/backups/db_backup_shop_live"]).
Proof.
  refine (deploy_live_backup_rejected shop_conf failing_backup_world
            failing_backup_world_returns (mkRunResult false "error: disk full")
            [] (fun _ => eq_refl) (fun _ _ => eq_refl) _).
  intros [Hs _]. discriminate.
Defined.

Section FetchScope.

Variable c : Conf.
Variable w : World.
Variable rt : Runtime.

(** X9. On the remote host [fetch_data] only takes backups: in every
    run, whatever the host and the operator answer, each remote command
    is the database backup (in the project directory) or the uploads
    backup of the environment named by the variant; it never clears or
    loads a remote database. *)
Theorem fetch_data_remote_scope (variant : string) (h : list Event) :
  Forall (fetch_remote_scope c variant)
    (snd (fetch_data c w rt variant [] h)).
Proof.
  set (P := fetch_remote_scope c variant).
  assert (Hp : forall msg, P (EvPrint msg))
    by (intros msg d cmd E; discriminate).
  assert (Hq : forall t d, P (EvPrompt t d))
    by (intros t d d' cmd E; discriminate).
  assert (Hl : forall cmd, P (EvLocal cmd))
    by (intros cmd' d cmd E; discriminate).
  assert (Hg : forall a b, P (EvGet a b))
    by (intros a b d cmd E; discriminate).
  assert (S : satisfies_at [] (fetch_data c w rt variant) P (fun _ => True));
    [|apply S].
  unfold fetch_data.
  apply sat_at_bind with (Q1 := fun _ => True).
  { apply sat_at_of_sat.
    destruct (negb _); [apply sat_raise | apply sat_ret; exact I]. }
  intros _ _. cbv zeta.
  apply sat_at_bind
    with (Q1 := fun env => ENVIRONMENTS c variant = Some env).
  { apply sat_at_of_sat. unfold lookup_env.
    destruct (ENVIRONMENTS c variant) as [env|];
      [apply sat_ret; reflexivity | apply sat_raise]. }
  intros env Henv.
  apply sat_at_bind with (Q1 := fun _ => True).
  { unfold backup_data.
    eapply sat_at_bind.
    { apply sat_at_backup_database.
      intros d cmd E. injection E as <- <-. exists env. auto. }
    intros db _.
    eapply sat_at_bind.
    { apply sat_at_backup_uploads.
      intros d cmd E. injection E as <- <-. exists env. auto. }
    intros up _. apply sat_at_of_sat, sat_ret. exact I. }
  intros backups _.
  apply sat_at_bind with (Q1 := fun _ => True);
    [apply sat_at_of_sat, sat_get, Hg|].
  intros _ _.
  apply sat_at_bind with (Q1 := fun _ => True);
    [apply sat_at_yes; assumption|].
  intros [|] _; simpl negb; cbv iota;
    [|apply sat_at_of_sat, sat_ret; exact I].
  apply sat_at_bind with (Q1 := fun _ => True);
    [apply sat_at_of_sat, sat_local, Hl|].
  intros _ _.
  apply sat_at_bind with (Q1 := fun _ => True);
    [apply sat_at_of_sat, sat_local, Hl|].
  intros _ _.
  apply sat_at_bind with (Q1 := fun _ => True);
    [apply sat_at_yes; assumption|].
  intros [|] _; [|apply sat_at_of_sat, sat_ret; exact I].
  apply sat_at_bind with (Q1 := fun _ => True);
    [apply sat_at_of_sat, sat_index|].
  intros host0 _.
  apply sat_at_bind with (Q1 := fun _ => True);
    [apply sat_at_of_sat, sat_index|].
  intros host _. apply sat_at_of_sat, sat_local, Hl.
Qed.

End FetchScope.

(** ** The local half of [fetch_data] *)

Lemma split1_head s ch :
  exists rest, PyStr.split1 s ch = transfer_host_of s ch :: rest.
Proof.
  unfold transfer_host_of.
  induction s as [|a s IH]; simpl.
  - exists []. reflexivity.
  - destruct (Ascii.eqb a ch); [eexists; reflexivity|].
    destruct IH as [rest E]. rewrite E. eexists. reflexivity.
Qed.

(** The host handed to rdiff-backup is the configured host up to its
    first colon. *)
Lemma transfer_host_spec host0 :
  has_char ":"%char (transfer_host host0) = false /\
  (host0 = transfer_host host0 \/
   exists port, host0 = transfer_host host0 ++ ":" ++ port).
Proof.
  unfold transfer_host, transfer_host_of.
  destruct (has_char ":"%char host0) eqn:H.
  - destruct (PyStrFacts.split1_cut _ _ H) as (b & r & -> & E & Hb).
    split; [exact Hb|]. right. exists r. exact E.
  - rewrite (PyStrFacts.split1_no_cut _ _ H). split; [exact H|].
    left. reflexivity.
Qed.

Section FetchLocal.

Variable c : Conf.
Variable w : World.
Variable rt : Runtime.
Hypothesis Hret : runs_return w.
Hypothesis Hget : gets_return w.
Hypothesis Hloc : locals_return w.

Lemma fab_local_returns cmd cd h :
  fab_local w cmd cd h = (Ok tt, [EvLocal cmd]).
Proof. unfold fab_local. rewrite Hloc. reflexivity. Qed.

(** X10. The whole of an accepted [fetch_data]: with one host, a known
    variant, every operation returning, the backup output accepted and
    the database reset accepted, the task takes both remote backups,
    downloads the dump into the temporary directory, clears and loads the
    local database, asks about the uploads and, only if that is accepted,
    restores them with rdiff-backup from the configured host with
    everything from its first colon on (the port) cut off; then it
    returns. *)
Theorem fetch_data_accepted (variant host0 : string)
    (env : ProjectEnvironment) (r : RunResult) (uploads : bool)
    (h : list Event) :
  env_hosts rt = [host0] ->
  ENVIRONMENTS c variant = Some env ->
  backup_answers c w env r ->
  backup_accepted r ->
  accepts w (fetch_question variant) ->
  answers w "Fetch uploads as well?" uploads ->
  let db_file := backup_file_of (output r) in
  fetch_data c w rt variant [] h =
  (Ok tt,
   (fetched_before_asking c rt env db_file
    ++ [EvPrompt (fetch_question variant ++ " (y/n)") "n";
        EvLocal (local_db_clear_cmd c rt);
        EvLocal (local_db_load_cmd c rt db_file);
        EvPrompt "Fetch uploads as well? (y/n)" "n"]
    ++ (if uploads
        then [EvLocal (local_rdiff_cmd c rt (transfer_host host0) env)]
        else []))%list) /\
  has_char ":"%char (transfer_host host0) = false /\
  (host0 = transfer_host host0 \/
   exists port, host0 = transfer_host host0 ++ ":" ++ port).
Proof.
  intros Hhosts Henv Hb Hacc Hyes Hup db_file.
  split; [|apply transfer_host_spec].
  unfold fetch_data. rewrite Hhosts. simpl negb. cbv iota.
  unfold lookup_env. rewrite Henv.
  destruct (split1_head host0 ":"%char) as [rest Hsplit].
  etransitivity.
  { eapply bind_ok; [reflexivity|]. cbv beta zeta.
    eapply bind_ok; [reflexivity|].
    eapply bind_ok; [apply (backup_data_returns c w env r [] _ Hret Hb Hacc)|].
    cbv beta zeta. unfold fst at 1 2 3, snd at 1.
    eapply bind_ok; [unfold fab_get; rewrite Hget; reflexivity|].
    eapply bind_ok; [apply yes_accepted, Hyes|]. simpl negb. cbv iota.
    eapply bind_ok; [apply fab_local_returns|].
    eapply bind_ok; [apply fab_local_returns|].
    eapply bind_ok; [apply (yes_answers w), Hup|].
    instantiate (1 := if uploads
                      then [EvLocal (local_rdiff_cmd c rt
                                       (transfer_host host0) env)]
                      else []).
    instantiate (1 := Ok tt).
    destruct uploads; [|reflexivity].
    etransitivity.
    { eapply bind_ok; [reflexivity|].
      eapply bind_ok; [unfold py_index; rewrite Hsplit; reflexivity|].
      apply fab_local_returns. }
    reflexivity. }
  reflexivity.
Qed.

End FetchLocal.

Lemma fetch_data_accepted_witness :
  fetch_data shop_conf (shop_world "y") (shop_runtime ["dev@alpha:2222"])
    "live" [] [] =
  (Ok tt,
   [EvRun ["/srv/shop/live/src/shop"]
      "./manage.py db_backup /srv/shop/live/backups/db_backup_shop_live";
    EvRun []
      "rdiff-backup /srv/shop/live/src/shop/media/uploads /srv/shop/live/backups/shop_live_uploads";
    EvGet "/srv/shop/live/backups/db.sql" "/tmp/db.sql";
    EvPrompt "Reset local database content from 'live'? (y/n)" "n";
    EvLocal "cd /home/dev/shop/src/shop; ./manage.py db_clear --noinput";
    EvLocal
      "cd /home/dev/shop/src/shop; ./manage.py db_load /tmp/db.sql --noinput";
    EvPrompt "Fetch uploads as well? (y/n)" "n";
    EvLocal
      "cd /home/dev/shop/src/shop; rdiff-backup --force -r now dev@alpha::/srv/shop/live/backups/shop_live_uploads /home/dev/shop/src/shop/media/uploads"]).
Proof.
  exact (proj1 (fetch_data_accepted shop_conf (shop_world "y")
                  (shop_runtime ["dev@alpha:2222"])
                  (shop_world_returns "y") (fun _ _ _ => eq_refl)
                  (fun _ _ => eq_refl)
                  "live" "dev@alpha:2222" (live_env shop_conf)
                  shop_backup_reply true []
                  eq_refl eq_refl (fun _ _ => eq_refl) shop_backup_accepted
                  (fun _ => eq_refl) (fun _ => eq_refl))).
Defined.

(** ** Paths *)

Module PathFacts.
Import PyStr OsPath.

Lemma sapp_assoc (a b d : string) : (a ++ b) ++ d = a ++ b ++ d.
Proof. induction a as [|x a IH]; simpl; [reflexivity | now rewrite IH]. Qed.

Lemma sapp_nil_r (a : string) : a ++ "" = a.
Proof. induction a as [|x a IH]; simpl; [reflexivity | now rewrite IH]. Qed.

Lemma sapp_inv_head (a x y : string) : a ++ x = a ++ y -> x = y.
Proof.
  induction a as [|z a IH]; simpl; intros H; [exact H|].
  injection H as H. exact (IH H).
Qed.

Lemma endswith_char_app (a b : string) (ch : ascii) :
  endswith_char (a ++ b) ch =
  match b with
  | EmptyString => endswith_char a ch
  | _ => endswith_char b ch
  end.
Proof.
  induction a as [|x a IH].
  - destruct b; reflexivity.
  - destruct b as [|y b].
    + rewrite sapp_nil_r. reflexivity.
    + simpl append. simpl endswith_char at 1.
      destruct (a ++ String y b) eqn:E.
      * destruct a; discriminate.
      * exact IH.
Qed.

Lemma startswith_slash (b : string) :
  startswith b "/" = true <-> exists t, b = String "/"%char t.
Proof.
  unfold startswith. destruct b as [|a t].
  - split; [intros H; discriminate H | intros [t E]; discriminate E].
  - change (String.prefix "/" (String a t))
      with (if ascii_dec "/"%char a then String.prefix "" t else false).
    destruct (ascii_dec "/"%char a) as [<-|N].
    + split; [intros _; eauto | intros _; destruct t; reflexivity].
    + split; [intros H; discriminate H | intros [t' E]; congruence].
Qed.

Lemma no_slash_relative (b : string) :
  has_char "/"%char b = false -> startswith b "/" = false.
Proof.
  intros H. destruct (startswith b "/") eqn:E; [|reflexivity].
  apply startswith_slash in E. destruct E as [t ->]. discriminate.
Qed.

(** One step of [join] with a relative component appends it, after a
    slash unless the path is empty or already ends with one; with an
    absolute component it forgets the path. *)
Lemma join_step_relative (p b : string) :
  startswith b "/" = false -> join_step p b = p ++ join_sep p ++ b.
Proof.
  intros H. unfold join_step, join_sep. rewrite H.
  destruct (String.eqb p "" || endswith_char p "/"%char)%bool; reflexivity.
Qed.

Lemma join_step_absolute (p b : string) :
  startswith b "/" = true -> join_step p b = b.
Proof. intros H. unfold join_step. rewrite H. reflexivity. Qed.

Lemma join_sep_app (p t : string) :
  t <> "" -> join_sep (p ++ t) = join_sep t.
Proof.
  intros Ht. unfold join_sep. rewrite endswith_char_app.
  destruct t as [|a t]; [congruence|].
  replace (String.eqb (p ++ String a t) "") with false
    by (symmetry; apply String.eqb_neq; destruct p; discriminate).
  reflexivity.
Qed.

Lemma slice_from_app (d t : string) :
  slice_from (String.length d) (d ++ t) = t.
Proof. induction d as [|x d IH]; simpl; [destruct t; reflexivity | exact IH]. Qed.

Lemma rfind_char_spec (ch : ascii) : forall s,
  (rfind_char s ch = (-1)%Z /\ has_char ch s = false) \/
  (exists dir b, s = dir ++ String ch b /\ has_char ch b = false /\
                 rfind_char s ch = Z.of_nat (String.length dir)).
Proof.
  induction s as [|a s IH].
  - left. split; reflexivity.
  - simpl rfind_char. destruct IH as [[Hr Hn]|(dir & b & -> & Hb & Hr)].
    + rewrite Hr. simpl Z.leb. cbv iota.
      destruct (Ascii.eqb a ch) eqn:E.
      * right. apply Ascii.eqb_eq in E. subst a.
        exists "", s. repeat split. exact Hn.
      * left. split; [reflexivity|]. simpl. rewrite E, Hn. reflexivity.
    + right. rewrite Hr.
      replace (0 <=? Z.of_nat (String.length dir))%Z with true
        by (symmetry; apply Z.leb_le; lia).
      exists (String a dir), b. repeat split; [exact Hb|].
      simpl String.length. lia.
Qed.

(** [os.path.basename] returns the part after the last slash: it has no
    slash, and what it cuts off is empty or ends with a slash. *)
Lemma basename_spec (p : string) :
  has_char "/"%char (basename p) = false /\
  exists dir, p = dir ++ basename p /\
              (dir = "" \/ endswith_char dir "/"%char = true).
Proof.
  unfold basename.
  destruct (rfind_char_spec "/"%char p)
    as [[Hr Hn]|(dir & b & -> & Hb & Hr)]; rewrite Hr.
  - simpl. split; [exact Hn|]. exists "". split; [reflexivity | auto].
  - replace (Z.to_nat (Z.of_nat (String.length dir) + 1))
      with (String.length (dir ++ "/")).
    2:{ clear. induction dir as [|x d IH]; simpl; [reflexivity|].
        rewrite IH. lia. }
    change (dir ++ String "/" b) with (dir ++ "/" ++ b).
    rewrite <- sapp_assoc, slice_from_app.
    split; [exact Hb|]. exists (dir ++ "/"). split; [reflexivity|].
    right. rewrite endswith_char_app. reflexivity.
Qed.

Lemma rfind_char_none (ch : ascii) (s : string) :
  has_char ch s = false -> rfind_char s ch = (-1)%Z.
Proof.
  induction s as [|a s IH]; simpl; intros H; [reflexivity|].
  apply orb_false_iff in H. destruct H as [E H].
  rewrite (IH H), E. reflexivity.
Qed.

Lemma rfind_char_last (ch : ascii) (name : string) :
  has_char ch name = false ->
  forall dir,
    rfind_char (dir ++ String ch name) ch = Z.of_nat (String.length dir).
Proof.
  intros Hn. induction dir as [|a dir IH].
  - simpl. rewrite (rfind_char_none _ _ Hn), Ascii.eqb_refl. reflexivity.
  - simpl append. simpl rfind_char. rewrite IH.
    replace (0 <=? Z.of_nat (String.length dir))%Z with true
      by (symmetry; apply Z.leb_le; lia).
    simpl String.length. lia.
Qed.

(** [os.path.basename] gives back a slash-free last component, and a
    path without slash unchanged. *)
Lemma basename_last (dir name : string) :
  has_char "/"%char name = false -> basename (dir ++ "/" ++ name) = name.
Proof.
  intros Hn. unfold basename.
  change (dir ++ "/" ++ name) with (dir ++ String "/"%char name).
  rewrite (rfind_char_last _ _ Hn).
  replace (Z.to_nat (Z.of_nat (String.length dir) + 1))
    with (String.length (dir ++ "/")).
  2:{ clear. induction dir as [|x d IH]; simpl; [reflexivity|].
      rewrite IH. lia. }
  change (dir ++ String "/" name) with (dir ++ "/" ++ name).
  rewrite <- sapp_assoc. apply slice_from_app.
Qed.

Lemma basename_plain (name : string) :
  has_char "/"%char name = false -> basename name = name.
Proof.
  intros Hn. unfold basename. rewrite (rfind_char_none _ _ Hn). reflexivity.
Qed.

End PathFacts.

Section LocalDump.

Variable c : Conf.
Variable rt : Runtime.

(** X11. The local name of the downloaded database dump is built from
    the last component of the path the backup command printed:
    it is [tempfile.gettempdir()], a slash unless that directory is empty
    or ends with one, and [os.path.basename] of the printed path, that
    is, the text after its last slash.  The directory part of the printed
    path does not appear in the local name, which therefore starts with
    the temporary directory's path; the last component is used as it is,
    whatever it is: a printed path ending in [/..] gives [<tmp>/..], and
    one ending in a slash gives the temporary directory with a trailing
    slash. *)
Theorem local_db_file_in_tempdir (db_file : string) :
  let tmp := gettempdir rt in
  local_db_file rt db_file =
    tmp ++ join_sep tmp ++ OsPath.basename db_file /\
  has_char "/"%char (OsPath.basename db_file) = false /\
  String.prefix tmp (local_db_file rt db_file) = true /\
  (exists dir, db_file = dir ++ OsPath.basename db_file /\
               (dir = "" \/ PyStr.endswith_char dir "/"%char = true)) /\
  (forall dir name,
     has_char "/"%char name = false ->
     db_file = dir ++ "/" ++ name ->
     local_db_file rt db_file = tmp ++ join_sep tmp ++ name) /\
  (has_char "/"%char db_file = false ->
   local_db_file rt db_file = tmp ++ join_sep tmp ++ db_file).
Proof.
  intros tmp.
  destruct (PathFacts.basename_spec db_file) as [Hn Hdir].
  assert (E : local_db_file rt db_file =
              tmp ++ join_sep tmp ++ OsPath.basename db_file).
  { unfold local_db_file, OsPath.join. simpl fold_left.
    apply PathFacts.join_step_relative, PathFacts.no_slash_relative, Hn. }
  split; [exact E|]. split; [exact Hn|]. split.
  { rewrite E. apply PyStrFacts.prefix_app. }
  split; [exact Hdir|]. split.
  - intros dir name Hname ->.
    rewrite E, (PathFacts.basename_last dir name Hname). reflexivity.
  - intros Hplain. rewrite E, (PathFacts.basename_plain _ Hplain).
    reflexivity.
Qed.

End LocalDump.

Lemma local_db_file_in_tempdir_witness :
  local_db_file (shop_runtime ["dev@alpha"]) "/srv/shop/live/backups/.." =
    "/tmp/.." /\
  local_db_file (shop_runtime ["dev@alpha"]) "/srv/shop/live/backups/" =
    "/tmp/".
Proof.
  split.
  - exact (proj1 (proj2 (proj2 (proj2 (proj2
             (local_db_file_in_tempdir (shop_runtime ["dev@alpha"])
                "/srv/shop/live/backups/..")))))
             "/srv/shop/live/backups" ".." eq_refl eq_refl).
  - exact (proj1 (proj2 (proj2 (proj2 (proj2
             (local_db_file_in_tempdir (shop_runtime ["dev@alpha"])
                "/srv/shop/live/backups/")))))
             "/srv/shop/live/backups" "" eq_refl eq_refl).
Defined.

(** ** The directories of an environment *)

Section Directories.

Variable c : Conf.

Lemma join_sep_slash (p : string) :
  p <> "" -> PyStr.endswith_char p "/"%char = false -> join_sep p = "/".
Proof.
  intros Hp He. unfold join_sep. rewrite He.
  apply String.eqb_neq in Hp. rewrite Hp. reflexivity.
Qed.

(** With relative [SRC_DIR] and [PROJECT_NAME], the project directory is
    the environment's path followed by a common tail. *)
Lemma projdir_tail (self : ProjectEnvironment) :
  path self <> "" ->
  PyStr.endswith_char (path self) "/"%char = false ->
  PyStr.startswith (SRC_DIR c) "/" = false ->
  PyStr.startswith (PROJECT_NAME c) "/" = false ->
  projdir c self =
  path self ++ "/" ++ SRC_DIR c ++ join_sep ("/" ++ SRC_DIR c)
  ++ PROJECT_NAME c.
Proof.
  intros Hp He Hs Hn. unfold projdir, OsPath.join. simpl fold_left.
  rewrite (PathFacts.join_step_relative _ _ Hs), (join_sep_slash _ Hp He).
  rewrite (PathFacts.join_step_relative _ _ Hn).
  rewrite PathFacts.join_sep_app by discriminate.
  rewrite !PathFacts.sapp_assoc. reflexivity.
Qed.

Lemma backupdir_tail (self : ProjectEnvironment) :
  path self <> "" ->
  PyStr.endswith_char (path self) "/"%char = false ->
  PyStr.startswith (BACKUP_DIR c) "/" = false ->
  backupdir c self = path self ++ "/" ++ BACKUP_DIR c.
Proof.
  intros Hp He Hb. unfold backupdir, OsPath.join. simpl fold_left.
  rewrite (PathFacts.join_step_relative _ _ Hb), (join_sep_slash _ Hp He).
  reflexivity.
Qed.

(** X12. Path composition as the code performs it: for an environment
    whose path is non-empty and has no trailing slash, and a configuration
    whose [SRC_DIR] is non-empty, relative and without trailing slash and
    whose [PROJECT_NAME] and [BACKUP_DIR] are relative, the project
    directory is path/SRC_DIR/PROJECT_NAME and the backup directory is
    path/BACKUP_DIR. *)
Theorem projdir_backupdir_relative (self : ProjectEnvironment) :
  path self <> "" ->
  PyStr.endswith_char (path self) "/"%char = false ->
  SRC_DIR c <> "" ->
  PyStr.startswith (SRC_DIR c) "/" = false ->
  PyStr.endswith_char (SRC_DIR c) "/"%char = false ->
  PyStr.startswith (PROJECT_NAME c) "/" = false ->
  PyStr.startswith (BACKUP_DIR c) "/" = false ->
  projdir c self = path self ++ "/" ++ SRC_DIR c ++ "/" ++ PROJECT_NAME c /\
  backupdir c self = path self ++ "/" ++ BACKUP_DIR c.
Proof.
  intros Hp He Hs0 Hs Hse Hn Hb. split.
  - rewrite (projdir_tail self Hp He Hs Hn).
    rewrite (PathFacts.join_sep_app "/" (SRC_DIR c) Hs0).
    rewrite (join_sep_slash _ Hs0 Hse). reflexivity.
  - apply backupdir_tail; assumption.
Qed.

Lemma registry_path (tag : string) :
  tag <> "" ->
  PyStr.startswith tag "/" = false ->
  PyStr.endswith_char tag "/"%char = false ->
  let p := OsPath.join (PROJECT_BASE_PATH c) [tag] in
  p = PROJECT_BASE_PATH c ++ join_sep (PROJECT_BASE_PATH c) ++ tag /\
  p <> "" /\ PyStr.endswith_char p "/"%char = false.
Proof.
  intros Ht Hs He p.
  assert (E : p = PROJECT_BASE_PATH c ++ join_sep (PROJECT_BASE_PATH c)
                  ++ tag)
    by (apply PathFacts.join_step_relative, Hs).
  split; [exact E|]. rewrite E. split.
  - destruct tag; [congruence|].
    destruct (PROJECT_BASE_PATH c); [|discriminate].
    destruct (join_sep ""); discriminate.
  - rewrite <- PathFacts.sapp_assoc, PathFacts.endswith_char_app.
    destruct tag; [congruence | exact He].
Qed.

(** X13. The paths the registry gives the two environments, as the
    strings the code computes and hands to [fab.cd]: the project
    directory path of [stage] equals that of [live] if and only if
    [SRC_DIR] or [PROJECT_NAME] starts with a slash (an absolute
    component makes [os.path.join] drop the environment's own path), and
    their backup directory paths are equal if and only if [BACKUP_DIR]
    starts with a slash.  This compares path strings only: it says
    nothing about different strings that name one directory. *)
Theorem stage_live_paths_equal_iff :
  (projdir c (stage_env c) = projdir c (live_env c) <->
   PyStr.startswith (SRC_DIR c) "/" = true \/
   PyStr.startswith (PROJECT_NAME c) "/" = true) /\
  (backupdir c (stage_env c) = backupdir c (live_env c) <->
   PyStr.startswith (BACKUP_DIR c) "/" = true).
Proof.
  destruct (registry_path "stage") as (Es & Ns & Ss);
    [discriminate | reflexivity | reflexivity |].
  destruct (registry_path "live") as (El & Nl & Sl);
    [discriminate | reflexivity | reflexivity |].
  assert (Hdiff : forall T : string,
            path (stage_env c) ++ T <> path (live_env c) ++ T).
  { intros T H.
    change (path (stage_env c))
      with (OsPath.join (PROJECT_BASE_PATH c) ["stage"]) in H.
    change (path (live_env c))
      with (OsPath.join (PROJECT_BASE_PATH c) ["live"]) in H.
    rewrite Es, El in H.
    rewrite !PathFacts.sapp_assoc in H.
    apply PathFacts.sapp_inv_head, PathFacts.sapp_inv_head in H.
    discriminate H. }
  split.
  - destruct (PyStr.startswith (PROJECT_NAME c) "/") eqn:Hn.
    + split; [auto|]. intros _. unfold projdir, OsPath.join.
      simpl fold_left.
      rewrite !(PathFacts.join_step_absolute _ _ Hn). reflexivity.
    + destruct (PyStr.startswith (SRC_DIR c) "/") eqn:Hs.
      * split; [auto|]. intros _. unfold projdir, OsPath.join.
        simpl fold_left.
        rewrite !(PathFacts.join_step_absolute _ _ Hs). reflexivity.
      * split; [|intros [H|H]; discriminate H].
        intros H. exfalso.
        rewrite (projdir_tail (stage_env c) Ns Ss Hs Hn) in H.
        rewrite (projdir_tail (live_env c) Nl Sl Hs Hn) in H.
        exact (Hdiff _ H).
  - destruct (PyStr.startswith (BACKUP_DIR c) "/") eqn:Hb.
    + split; [auto|]. intros _. unfold backupdir, OsPath.join.
      simpl fold_left.
      rewrite !(PathFacts.join_step_absolute _ _ Hb). reflexivity.
    + split; [|intros H; discriminate H].
      intros H. exfalso.
      rewrite (backupdir_tail (stage_env c) Ns Ss Hb) in H.
      rewrite (backupdir_tail (live_env c) Nl Sl Hb) in H.
      exact (Hdiff _ H).
Qed.

End Directories.

Lemma projdir_backupdir_relative_witness :
  projdir shop_conf (live_env shop_conf) = "/srv/shop/live/src/shop" /\
  backupdir shop_conf (live_env shop_conf) = "/srv/shop/live/backups".
Proof.
  refine (projdir_backupdir_relative shop_conf (live_env shop_conf)
            _ eq_refl _ eq_refl eq_refl eq_refl eq_refl); discriminate.
Defined.

(** ** Parsing the output of the backup command *)

Module StripFacts.
Import PyStr.

Lemma split1_at_first (ch : ascii) (b a : string) :
  has_char ch b = false -> split1 (b ++ String ch a) ch = [b; a].
Proof.
  induction b as [|x b IH]; simpl; intros H.
  - rewrite Ascii.eqb_refl. reflexivity.
  - apply orb_false_iff in H. destruct H as [E H].
    rewrite E, (IH H). reflexivity.
Qed.

Lemma lstrip_spaces (l s : string) :
  all_space l = true -> lstrip (l ++ s) = lstrip s.
Proof.
  induction l as [|a l IH]; simpl; intros H; [reflexivity|].
  apply andb_true_iff in H. destruct H as [Ha Hl].
  rewrite Ha. exact (IH Hl).
Qed.

Lemma lstrip_fixed (s : string) :
  (forall a t, s = String a t -> isspace a = false) -> lstrip s = s.
Proof.
  destruct s as [|a t]; intros H; [reflexivity|].
  simpl. rewrite (H a t eq_refl). reflexivity.
Qed.

Lemma rstrip_spaces (t : string) : all_space t = true -> rstrip t = "".
Proof.
  induction t as [|a t IH]; simpl; intros H; [reflexivity|].
  apply andb_true_iff in H. destruct H as [Ha Ht].
  rewrite (IH Ht), Ha. reflexivity.
Qed.

Lemma rstrip_fixed (v : string) :
  (forall a, last_char v = Some a -> isspace a = false) -> rstrip v = v.
Proof.
  induction v as [|a v IH]; intros H; [reflexivity|].
  simpl. destruct v as [|b v].
  - simpl. rewrite (H a eq_refl). reflexivity.
  - rewrite IH; [reflexivity|]. intros x Hx. apply H. exact Hx.
Qed.

(** [rstrip] of a concatenation: the right part decides. *)
Lemma rstrip_app (x y : string) :
  rstrip (x ++ y) =
  match rstrip y with
  | EmptyString => rstrip x
  | ry => x ++ ry
  end.
Proof.
  induction x as [|a x IH].
  - simpl. destruct (rstrip y); reflexivity.
  - simpl append. simpl rstrip at 1. rewrite IH.
    destruct (rstrip y) as [|b ry]; [reflexivity|].
    destruct x; reflexivity.
Qed.

(** [strip] undoes padding with whitespace. *)
Lemma strip_padded (l v t : string) :
  all_space l = true -> all_space t = true -> trimmed v ->
  strip (l ++ v ++ t) = v.
Proof.
  intros Hl Ht [Hhead Hlast]. unfold strip.
  rewrite (lstrip_spaces _ _ Hl).
  destruct v as [|a v].
  - simpl append.
    destruct (PyStrFacts.lstrip_spec t) as (l' & E & Hl' & _).
    apply rstrip_spaces.
    assert (Hall : forall x y, all_space (x ++ y) = true ->
                               all_space y = true).
    { induction x as [|z x IHx]; simpl; intros y H; [exact H|].
      apply andb_true_iff in H. apply IHx, H. }
    rewrite E in Ht. exact (Hall _ _ Ht).
  - rewrite lstrip_fixed.
    2:{ intros b u E. simpl in E. injection E as <- _.
        exact (Hhead a v eq_refl). }
    rewrite rstrip_app, (rstrip_spaces _ Ht). apply rstrip_fixed, Hlast.
Qed.

Lemma slength_app (a b : string) :
  String.length (a ++ b) = (String.length a + String.length b)%nat.
Proof. induction a as [|x a IH]; simpl; [reflexivity | now rewrite IH]. Qed.

Lemma app_self (p m : string) : p ++ m = m -> p = "".
Proof.
  intros E. apply (f_equal String.length) in E. rewrite slength_app in E.
  destruct p; [reflexivity | simpl in E; lia].
Qed.

Lemma occurs_nonempty (sub s : string) :
  sub <> "" -> occurs sub s -> s <> "".
Proof.
  intros Hs (pre & post & ->) E.
  destruct pre; [|discriminate]. destruct sub; [congruence | discriminate].
Qed.

Lemma occurs_lstrip (sub s : string) :
  (forall a t, sub = String a t -> isspace a = false) ->
  sub <> "" ->
  occurs sub s -> occurs sub (lstrip s).
Proof.
  intros Hhead Hne. induction s as [|a s IH]; intros Ho; [exact Ho|].
  simpl. destruct (isspace a) eqn:Ha; [|exact Ho].
  apply IH. destruct Ho as (pre & post & E).
  destruct pre as [|b pre].
  - destruct sub as [|x sub]; [congruence|].
    simpl in E. injection E as <- _.
    rewrite (Hhead a sub eq_refl) in Ha. discriminate.
  - simpl in E. injection E as _ ->. exists pre, post. reflexivity.
Qed.

Lemma occurs_rstrip (sub s : string) :
  (forall a, last_char sub = Some a -> isspace a = false) ->
  sub <> "" ->
  occurs sub s -> occurs sub (rstrip s).
Proof.
  intros Hlast Hne. induction s as [|a s IH]; intros Ho; [exact Ho|].
  destruct Ho as (pre & post & E). destruct pre as [|b pre].
  - simpl append in E. rewrite E, rstrip_app, (rstrip_fixed _ Hlast).
    destruct (rstrip post) as [|y ry].
    + exists "", "". simpl. symmetry. apply PathFacts.sapp_nil_r.
    + exists "", (String y ry). reflexivity.
  - simpl in E. injection E as Eb Es. subst b s.
    assert (Ho : occurs sub (pre ++ sub ++ post)) by (exists pre, post; auto).
    specialize (IH Ho).
    pose proof (occurs_nonempty _ _ Hne IH) as Hn.
    simpl rstrip. destruct (rstrip (pre ++ sub ++ post)) as [|y ry];
      [congruence|].
    destruct IH as (p' & q' & E'). exists (String a p'), q'.
    simpl. rewrite E'. reflexivity.
Qed.

(** A text that neither starts nor ends with whitespace survives
    [strip]. *)
Lemma occurs_strip (sub s : string) :
  trimmed sub -> sub <> "" -> occurs sub s -> occurs sub (strip s).
Proof.
  intros [Hh Hl] Hne Ho. unfold strip.
  apply occurs_rstrip; [exact Hl | exact Hne|].
  apply occurs_lstrip; assumption.
Qed.

Lemma marker_trimmed : trimmed backup_marker /\ backup_marker <> "".
Proof.
  repeat split.
  - intros a t E. injection E as <- _. reflexivity.
  - intros a E. injection E as <-. reflexivity.
  - discriminate.
Qed.

(** The marker sits at index 0 only if the text before the first colon
    is exactly the marker's own words. *)
Lemma marker_not_at_start (a b : string) :
  has_char ":"%char a = false ->
  a <> "successfully backed up to" ->
  String.prefix backup_marker (a ++ ":" ++ b) = false.
Proof.
  intros Ha Hne.
  destruct (String.prefix backup_marker (a ++ ":" ++ b)) eqn:P;
    [|reflexivity].
  exfalso. apply PyStrFacts.prefix_split in P. destruct P as [r E].
  pose proof (split1_at_first ":"%char a b Ha) as S1.
  change (a ++ String ":" b) with (a ++ ":" ++ b) in S1.
  rewrite E in S1.
  change (backup_marker ++ r)
    with ("successfully backed up to" ++ String ":"%char r) in S1.
  rewrite split1_at_first in S1 by reflexivity.
  injection S1 as S1 _. congruence.
Qed.

End StripFacts.

Section BackupOutput.

Variable c : Conf.
Variable w : World.

(** X14. Round trip with a well-behaved backup command: when the command
    succeeds and prints some text without colon, the marker
    "successfully backed up to:", optional whitespace, the file name and
    optional trailing whitespace, [backup_database] returns exactly that
    file name, whatever colons the file name itself contains. *)
Theorem backup_database_round_trip (self : ProjectEnvironment)
    (cd : list string) (h : list Event) (r : RunResult)
    (pre l file t : string) :
  run_reply w h (cd ++ [projdir c self])%list (db_backup_cmd c self) = Some r ->
  succeeded r = true ->
  output r = pre ++ backup_marker ++ l ++ file ++ t ->
  pre <> "" ->
  has_char ":"%char pre = false ->
  all_space l = true -> all_space t = true -> trimmed file ->
  backup_database c w self cd h =
  (Ok file, [EvRun (cd ++ [projdir c self])%list (db_backup_cmd c self)]).
Proof.
  intros Hr Hs Hout Hpre Hcol Hl Ht Htrim.
  assert (Hshape : output r =
            (pre ++ "successfully backed up to")
            ++ String ":"%char (l ++ file ++ t)).
  { rewrite Hout, PathFacts.sapp_assoc. reflexivity. }
  assert (Hcol' : has_char ":"%char (pre ++ "successfully backed up to")
                  = false)
    by (rewrite PyStrFacts.has_char_app, Hcol; reflexivity).
  assert (Hfind : (0 < PyStr.find (output r) backup_marker)%Z).
  { assert (H0 : (0 <= PyStr.find (output r) backup_marker)%Z)
      by (apply PyStrFacts.find_occurs; exists pre, (l ++ file ++ t); auto).
    assert (H1 : PyStr.find (output r) backup_marker <> 0%Z).
    { intros Hz. apply PyStrFacts.find_zero in Hz.
      rewrite Hshape in Hz.
      change ((pre ++ "successfully backed up to")
              ++ String ":"%char (l ++ file ++ t))
        with ((pre ++ "successfully backed up to")
              ++ ":" ++ (l ++ file ++ t)) in Hz.
      rewrite StripFacts.marker_not_at_start in Hz;
        [discriminate | exact Hcol' |].
      intros E. exact (Hpre (StripFacts.app_self _ _ E)). }
    lia. }
  rewrite (backup_database_accepted c w self cd h r Hr (conj Hs Hfind)).
  f_equal. f_equal.
  unfold backup_file_of. rewrite Hshape.
  rewrite (StripFacts.split1_at_first _ _ _ Hcol'). simpl nth_error.
  apply StripFacts.strip_padded; assumption.
Qed.

(** X15. A colon before the marker spoils the result: when the command
    succeeds and its output has a first colon that does not belong to the
    marker (a warning, a time stamp) with the marker somewhere after it,
    [backup_database] still returns a value, but that value is everything
    after that first colon, trimmed, and so still contains the marker
    text instead of being the file name. *)
Theorem backup_database_early_colon (self : ProjectEnvironment)
    (cd : list string) (h : list Event) (r : RunResult) (a b : string) :
  run_reply w h (cd ++ [projdir c self])%list (db_backup_cmd c self) = Some r ->
  succeeded r = true ->
  output r = a ++ ":" ++ b ->
  has_char ":"%char a = false ->
  a <> "successfully backed up to" ->
  occurs backup_marker b ->
  backup_database c w self cd h =
  (Ok (PyStr.strip b),
   [EvRun (cd ++ [projdir c self])%list (db_backup_cmd c self)]) /\
  occurs backup_marker (PyStr.strip b).
Proof.
  intros Hr Hs Hout Ha Hne Ho.
  assert (Hfind : (0 < PyStr.find (output r) backup_marker)%Z).
  { assert (H0 : (0 <= PyStr.find (output r) backup_marker)%Z).
    { apply PyStrFacts.find_occurs. destruct Ho as (p & q & ->).
      exists (a ++ ":" ++ p), q. rewrite Hout.
      rewrite !PathFacts.sapp_assoc. reflexivity. }
    assert (H1 : PyStr.find (output r) backup_marker <> 0%Z).
    { intros Hz. apply PyStrFacts.find_zero in Hz. rewrite Hout in Hz.
      rewrite (StripFacts.marker_not_at_start a b Ha Hne) in Hz.
      discriminate. }
    lia. }
  split.
  - rewrite (backup_database_accepted c w self cd h r Hr (conj Hs Hfind)).
    f_equal. f_equal. unfold backup_file_of. rewrite Hout.
    change (a ++ ":" ++ b) with (a ++ String ":"%char b).
    rewrite (StripFacts.split1_at_first _ _ _ Ha). reflexivity.
  - apply StripFacts.occurs_strip;
      [apply StripFacts.marker_trimmed | apply StripFacts.marker_trimmed
      | exact Ho].
Qed.

End BackupOutput.

Lemma backup_database_round_trip_witness :
  backup_database shop_conf (shop_world "y") (live_env shop_conf) [] [] =
  (Ok "/srv/shop/live/backups/db.sql",
   [EvRun [projdir shop_conf (live_env shop_conf)]
      (db_backup_cmd shop_conf (live_env shop_conf))]).
Proof.
  refine (backup_database_round_trip shop_conf (shop_world "y")
            (live_env shop_conf) [] [] shop_backup_reply
            "Database " " " "/srv/shop/live/backups/db.sql" ""
            eq_refl eq_refl eq_refl _ eq_refl eq_refl eq_refl _).
  - discriminate.
  - split.
    + intros a t E. injection E as <- _. reflexivity.
    + intros a E. vm_compute in E. injection E as <-. reflexivity.
Defined.

Lemma backup_database_early_colon_witness :
  backup_database shop_conf early_colon_world (live_env shop_conf) [] [] =
  (Ok "low disk. Database successfully backed up to: /srv/db.sql",
   [EvRun [projdir shop_conf (live_env shop_conf)]
      (db_backup_cmd shop_conf (live_env shop_conf))]).
Proof.
  refine (proj1 (backup_database_early_colon shop_conf early_colon_world
            (live_env shop_conf) [] [] early_colon_reply
            "Warning"
            " low disk. Database successfully backed up to: /srv/db.sql"
            eq_refl eq_refl eq_refl eq_refl _ _)).
  - discriminate.
  - exists " low disk. Database ", " /srv/db.sql". reflexivity.
Defined.

(** ** [backup_data] *)

Section BackupData.

Variable c : Conf.
Variable w : World.

Lemma backup_accepted_dec (r : RunResult) :
  {backup_accepted r} + {~ backup_accepted r}.
Proof.
  unfold backup_accepted.
  destruct (succeeded r);
    [|right; intros [H _]; discriminate H].
  destruct (Z_lt_dec 0 (PyStr.find (output r) backup_marker)) as [L|L];
    [left; auto | right; intros [_ H]; exact (L H)].
Qed.

(** X16. [backup_data] backs the database up first and the uploads
    second, and gives up after a failed database backup: in every run its
    trace is the database backup command alone or followed by the uploads
    backup command; the uploads backup is attempted only after an
    accepted database backup; and a returned pair is the file named by
    that accepted output and the uploads backup directory of the
    environment. *)
Theorem backup_data_order (self : ProjectEnvironment) (cd : list string)
    (h : list Event) :
  let reply :=
    run_reply w h (cd ++ [projdir c self])%list (db_backup_cmd c self) in
  let db := EvRun (cd ++ [projdir c self])%list (db_backup_cmd c self) in
  let up := EvRun cd (rdiff_backup_cmd c self) in
  (snd (backup_data c w self cd h) = [db] \/
   snd (backup_data c w self cd h) = [db; up]) /\
  (snd (backup_data c w self cd h) = [db; up] <->
   exists r, reply = Some r /\ backup_accepted r) /\
  (forall a b, fst (backup_data c w self cd h) = Ok (a, b) ->
   b = uploads_backup_dir c self /\
   exists r, reply = Some r /\ backup_accepted r /\
             a = backup_file_of (output r)).
Proof.
  intros reply db up. unfold backup_data.
  destruct reply as [r|] eqn:Hr; subst reply.
  - destruct (backup_accepted_dec r) as [Hacc|Hrej].
    + rewrite (bind_step _ _ _ _ _ _
                 (backup_database_accepted c w self cd h r Hr Hacc)).
      unfold bind. rewrite backup_uploads_run.
      destruct (run_reply w _ cd (rdiff_backup_cmd c self)); simpl;
        (split; [right; reflexivity|]);
        (split; [split; [intros _; exists r; auto | reflexivity]|]).
      * intros x y E. injection E as <- <-. split; [reflexivity|].
        exists r. auto.
      * intros x y E. discriminate E.
    + rewrite (bind_raise _ _ _ _ _ _
                 (backup_database_rejected c w self cd h r Hr Hrej)).
      simpl. split; [left; reflexivity|]. split.
      * split; [intros E; discriminate E|].
        intros (r' & E & Hacc). injection E as <-. contradiction.
      * intros x y E. discriminate E.
  - assert (E : backup_database c w self cd h =
                (Raise OperationFailed, [db]))
      by (rewrite backup_database_run, Hr; reflexivity).
    rewrite (bind_raise _ _ _ _ _ _ E). simpl.
    split; [left; reflexivity|]. split.
    + split; [intros E'; discriminate E'|].
      intros (r' & E' & _). discriminate E'.
    + intros x y E'. discriminate E'.
Qed.

End BackupData.

(** ** The database settings *)

Module DjangoFacts.
Import Django.

(** [rsplit('.', 1)] cuts at the last dot. *)
Lemma rsplit1_spec (ch : ascii) : forall s,
  (rsplit1 s ch = [s] /\ has_char ch s = false) \/
  (exists b t, rsplit1 s ch = [b; t] /\ s = b ++ String ch t /\
               has_char ch t = false).
Proof.
  induction s as [|a s IH].
  - left. split; reflexivity.
  - simpl rsplit1.
    destruct IH as [[E Hn]|(b & t & E & -> & Ht)]; rewrite E.
    + destruct (Ascii.eqb a ch) eqn:Ea.
      * right. apply Ascii.eqb_eq in Ea. subst a.
        exists "", s. repeat split. exact Hn.
      * left. split; [reflexivity|]. simpl. rewrite Ea, Hn. reflexivity.
    + right. exists (String a b), t. repeat split. exact Ht.
Qed.

(** [s.rsplit('.', 1)[-1]] is the last dotted component of [s]. *)
Lemma last_component (s : string) :
  exists e, last_item (rsplit1 s "."%char) = Val e /\
            has_char "."%char e = false /\
            (s = e \/ exists pre, s = pre ++ "." ++ e).
Proof.
  destruct (rsplit1_spec "."%char s) as [[E Hn]|(b & t & E & Hs & Ht)];
    rewrite E.
  - exists s. repeat split; auto.
  - exists t. repeat split; [exact Ht|]. right. exists b. exact Hs.
Qed.

Lemma tuple_lt_1_2 (major minor : Z) (rest : list Z) :
  tuple_lt (firstn 2 (major :: minor :: rest)) [1; 2]%Z = false <->
  at_least_1_2 major minor.
Proof.
  unfold at_least_1_2. simpl.
  destruct (Z.eqb_spec major 1) as [->|Hm].
  - destruct (Z.eqb_spec minor 2) as [->|Hn].
    + split; intros G; [lia | reflexivity].
    + destruct (Z.ltb_spec minor 2) as [L|L]; split; intros G;
        first [reflexivity | discriminate G | lia | exfalso; lia].
  - destruct (Z.ltb_spec major 1) as [L|L]; split; intros G;
      first [reflexivity | discriminate G | lia | exfalso; lia].
Qed.

End DjangoFacts.

Section DbConf.

Import Django.

(** X17. [db_conf] is computed once per environment object: after an
    access that returned a dictionary, every later access returns the
    same dictionary and leaves the object as it is, without calling
    [setup_environ] again and without looking at Django or the settings
    (it gives the same answer under any other installation). *)
Theorem db_conf_cached (dj : Install) (self self' : Cache)
    (setups setups' : nat) (d : DbConf) :
  db_conf dj self setups = (Val d, self', setups') ->
  forall (dj2 : Install) (n : nat),
    db_conf dj2 self' n = (Val d, self', n).
Proof.
  unfold db_conf. intros H dj2 n.
  destruct (_db_conf self) as [d0|] eqn:E.
  - injection H as <- <- _. rewrite E. reflexivity.
  - destruct (_get_db_conf dj self setups) as [[[d1|e] s1] n1].
    + injection H as <- <- _. reflexivity.
    + discriminate H.
Qed.

(** Once the version or the dictionary is cached, an access calls
    [setup_environ] no more and keeps the cached version. *)
Lemma db_conf_no_bootstrap (py : Python) (self : Cache) (setups : nat) :
  _db_conf self <> None \/ _django_version self <> None ->
  let '(_, self2, setups2) := db_conf py self setups in
  setups2 = setups /\ _django_version self2 = _django_version self.
Proof.
  destruct self as [[d0|] [v|]]; intros H;
    unfold db_conf, _get_db_conf, ProjectEnvironment_bootstrap_django;
    cbn [_db_conf _django_version];
    try (split; reflexivity).
  - match goal with
    | |- context [rbind ?x ?k] => destruct (rbind x k)
    end; split; reflexivity.
  - cbn in H. destruct H as [H|H]; congruence.
Qed.

(** X18. How often Django is bootstrapped.  An access to [db_conf] calls
    [setup_environ] at most once.  Once the version or the dictionary is
    cached, no later access calls it again and the cached version stays,
    also when accesses fail at a settings lookup; and after any access
    under a working installation one of the two is cached.  But a
    bootstrap that raises caches nothing: the access fails with that
    exception, the object is left as it was, and [setup_environ] has been
    called exactly when the exception came from it, so the next access
    bootstraps again. *)
Theorem db_conf_bootstraps_once (py : Python) (self : Cache)
    (setups : nat) :
  let '(r, self1, setups1) := db_conf py self setups in
  (setups <= setups1 <= S setups)%nat /\
  (_db_conf self1 <> None \/ _django_version self1 <> None ->
   forall py2 : Python,
     let '(_, self2, setups2) := db_conf py2 self1 setups1 in
     setups2 = setups1 /\ _django_version self2 = _django_version self1) /\
  (forall dj : Install, py = Working dj ->
   _db_conf self1 <> None \/ _django_version self1 <> None) /\
  (forall e called, py = Broken e called ->
   _db_conf self = None -> _django_version self = None ->
   r = Exc e /\ self1 = self /\
   setups1 = if called then S setups else setups).
Proof.
  destruct (db_conf py self setups) as [[r self1] setups1] eqn:E.
  split; [|split; [|split]].
  - revert E. destruct self as [[d0|] [v|]], py as [dj|e called];
      unfold db_conf, _get_db_conf, ProjectEnvironment_bootstrap_django,
        _bootstrap_django;
      cbn [_db_conf _django_version];
      try (intros E; injection E as _ _ <-; lia);
      try (match goal with
           | |- context [rbind ?x ?k] => destruct (rbind x k)
           end; intros E; injection E as _ _ <-; lia).
    destruct called; cbn; intros E; injection E as _ _ <-; lia.
  - intros H py2. apply db_conf_no_bootstrap, H.
  - intros dj ->. revert E.
    destruct self as [[d0|] [v|]];
      unfold db_conf, _get_db_conf, ProjectEnvironment_bootstrap_django,
        _bootstrap_django;
      cbn [_db_conf _django_version];
      try (intros E; injection E as _ <- _; cbn; left; discriminate);
      match goal with
      | |- context [rbind ?x ?k] => destruct (rbind x k)
      end; intros E; injection E as _ <- _; cbn;
      first [left; discriminate | right; discriminate].
  - intros e called -> Hc Hv. revert E.
    destruct self as [c0 v0]. cbn in Hc, Hv. subst c0 v0.
    unfold db_conf, _get_db_conf, ProjectEnvironment_bootstrap_django,
      _bootstrap_django.
    cbn. intros E. injection E as <- <- <-. repeat split.
Qed.

End DbConf.

Lemma db_conf_bootstraps_once_witness :
  Django.db_conf (Django.Broken (Django.ImportError "settings") true)
    Django.fresh 3 =
  (Django.Exc (Django.ImportError "settings"), Django.fresh, 4%nat).
Proof.
  pose proof (db_conf_bootstraps_once
                (Django.Broken (Django.ImportError "settings") true)
                Django.fresh 3) as H.
  destruct (Django.db_conf
              (Django.Broken (Django.ImportError "settings") true)
              Django.fresh 3) as [[r s1] n1].
  destruct H as (_ & _ & _ & H).
  destruct (H _ _ eq_refl eq_refl eq_refl) as (-> & -> & ->).
  reflexivity.
Defined.

Section DbConfStyles.

Import Django.

Variable dj : Install.
Variable major minor : Z.
Variable rest : list Z.
Hypothesis Hversion : VERSION dj = major :: minor :: rest.

Lemma bootstrap_fresh (setups : nat) :
  ProjectEnvironment_bootstrap_django dj fresh setups =
  (Val [major; minor], mkCache None (Some [major; minor]), S setups).
Proof.
  unfold ProjectEnvironment_bootstrap_django, _bootstrap_django, fresh.
  cbn [_django_version _db_conf]. rewrite Hversion. reflexivity.
Qed.

(** X19. With Django 1.2 or later, a first access to [db_conf] reads
    only [settings.DATABASES['default']]: the old flat [DATABASE_*]
    settings are not consulted (they may be missing), name, user,
    password, host and port are taken as they are, and the engine is the
    last dotted component of [ENGINE]: it contains no dot, and [ENGINE]
    is that component alone or ends with a dot followed by it.  The
    access bootstraps Django once and caches both the version and the
    dictionary. *)
Theorem db_conf_new_style (dbs : Dict (Dict string)) (d : Dict string)
    (full n u p h o : string) (setups : nat) :
  at_least_1_2 major minor ->
  DATABASES (settings dj) = Some dbs ->
  dbs "default" = Some d ->
  d "ENGINE" = Some full -> d "NAME" = Some n -> d "USER" = Some u ->
  d "PASSWORD" = Some p -> d "HOST" = Some h -> d "PORT" = Some o ->
  exists e,
    db_conf dj fresh setups =
      (Val (mkDbConf e n u p h o),
       mkCache (Some (mkDbConf e n u p h o)) (Some [major; minor]),
       S setups) /\
    has_char "."%char e = false /\
    (full = e \/ exists pre, full = pre ++ "." ++ e).
Proof.
  intros Hv Hdbs Hd He Hn Hu Hp Hh Ho.
  destruct (DjangoFacts.last_component full) as (e & Hlast & Hdot & Hshape).
  exists e. split; [|split; assumption].
  unfold db_conf. cbn [_db_conf fresh].
  unfold _get_db_conf. rewrite bootstrap_fresh.
  unfold import_settings, getattr_DATABASES, rbind, getitem.
  cbv beta iota zeta.
  replace (tuple_lt [major; minor] [1; 2]%Z) with false
    by (symmetry; apply (DjangoFacts.tuple_lt_1_2 major minor []), Hv).
  rewrite Hdbs. cbv beta iota. rewrite Hd. cbv beta iota.
  rewrite He, Hlast, Hn, Hu, Hp, Hh, Ho. reflexivity.
Qed.

(** X20. Before Django 1.2, a first access to [db_conf] reads the six
    flat [DATABASE_*] settings and copies them unchanged (the engine is
    not cut at a dot); [settings.DATABASES] is not consulted and may be
    missing. *)
Theorem db_conf_old_style (e n u p h o : string) (setups : nat) :
  ~ at_least_1_2 major minor ->
  setting (settings dj) "DATABASE_ENGINE" = Some e ->
  setting (settings dj) "DATABASE_NAME" = Some n ->
  setting (settings dj) "DATABASE_USER" = Some u ->
  setting (settings dj) "DATABASE_PASSWORD" = Some p ->
  setting (settings dj) "DATABASE_HOST" = Some h ->
  setting (settings dj) "DATABASE_PORT" = Some o ->
  db_conf dj fresh setups =
    (Val (mkDbConf e n u p h o),
     mkCache (Some (mkDbConf e n u p h o)) (Some [major; minor]),
     S setups).
Proof.
  intros Hv He Hn Hu Hp Hh Ho.
  unfold db_conf. cbn [_db_conf fresh].
  unfold _get_db_conf. rewrite bootstrap_fresh.
  unfold import_settings, rbind, getattr. cbv beta iota zeta.
  replace (tuple_lt [major; minor] [1; 2]%Z) with true.
  2:{ destruct (tuple_lt [major; minor] [1; 2]%Z) eqn:E; [reflexivity|].
      exfalso. apply Hv.
      apply (DjangoFacts.tuple_lt_1_2 major minor []). exact E. }
  rewrite He, Hn, Hu, Hp, Hh, Ho. reflexivity.
Qed.

(** X21. A Django 1.2 or later project without a usable [DATABASES]
    setting makes the first access to [db_conf] fail at the first lookup
    that is missing: an attribute error when [DATABASES] is not defined,
    a key error for [default] when that alias is missing, a key error
    for [ENGINE] when the alias has no engine.  The failure leaves
    [_db_conf] unset, so the next access tries again, but the Django
    version found stays cached. *)
Theorem db_conf_missing_settings (setups : nat) :
  at_least_1_2 major minor ->
  let failed (e : Err) :=
    db_conf dj fresh setups =
    (Exc e, mkCache None (Some [major; minor]), S setups) in
  match DATABASES (settings dj) with
  | None => failed (AttributeError "DATABASES")
  | Some dbs =>
      match dbs "default" with
      | None => failed (KeyError "default")
      | Some d =>
          match d "ENGINE" with
          | None => failed (KeyError "ENGINE")
          | Some _ => True
          end
      end
  end.
Proof.
  intros Hv failed. subst failed. cbv beta.
  unfold db_conf. cbn [_db_conf fresh].
  unfold _get_db_conf. rewrite bootstrap_fresh.
  unfold import_settings, getattr_DATABASES, rbind, getitem.
  cbv beta iota zeta.
  replace (tuple_lt [major; minor] [1; 2]%Z) with false
    by (symmetry; apply (DjangoFacts.tuple_lt_1_2 major minor []), Hv).
  destruct (DATABASES (settings dj)) as [dbs|]; [|reflexivity].
  cbv beta iota.
  destruct (dbs "default") as [d|]; [|reflexivity].
  cbv beta iota.
  destruct (d "ENGINE"); [exact I | reflexivity].
Qed.

End DbConfStyles.

Lemma db_conf_new_style_witness :
  exists e,
    Django.db_conf Django.sample_install Django.fresh 0 =
      (Django.Val (Django.mkDbConf e "shop" "shop" "secret" "localhost"
                     "5432"),
       Django.mkCache
         (Some (Django.mkDbConf e "shop" "shop" "secret" "localhost" "5432"))
         (Some [1; 3]%Z),
       1%nat) /\
    has_char "."%char e = false /\
    ("django.db.backends.postgresql_psycopg2" = e \/
     exists pre, "django.db.backends.postgresql_psycopg2" = pre ++ "." ++ e).
Proof.
  refine (db_conf_new_style Django.sample_install 1 3 [1%Z] eq_refl
            _ _ "django.db.backends.postgresql_psycopg2"
            "shop" "shop" "secret" "localhost" "5432" 0 _
            eq_refl eq_refl eq_refl eq_refl eq_refl eq_refl eq_refl eq_refl).
  unfold Django.at_least_1_2. lia.
Defined.

Lemma db_conf_old_style_witness :
  Django.db_conf Django.old_install Django.fresh 0 =
  (Django.Val (Django.mkDbConf "postgresql_psycopg2" "shop" "shop" "secret"
                 "localhost" ""),
   Django.mkCache
     (Some (Django.mkDbConf "postgresql_psycopg2" "shop" "shop" "secret"
              "localhost" ""))
     (Some [1; 1]%Z),
   1%nat).
Proof.
  refine (db_conf_old_style Django.old_install 1 1 [4%Z] eq_refl
            "postgresql_psycopg2" "shop" "shop" "secret" "localhost" "" 0 _
            eq_refl eq_refl eq_refl eq_refl eq_refl eq_refl).
  unfold Django.at_least_1_2. lia.
Defined.

Lemma db_conf_missing_settings_witness :
  Django.db_conf
    (Django.mkInstall [1; 4; 0]%Z (Django.mkSettings (fun _ => None) None))
    Django.fresh 0 =
  (Django.Exc (Django.AttributeError "DATABASES"),
   Django.mkCache None (Some [1; 4]%Z), 1%nat).
Proof.
  refine (db_conf_missing_settings
            (Django.mkInstall [1; 4; 0]%Z
               (Django.mkSettings (fun _ => None) None))
            1 4 [0%Z] eq_refl 0 _).
  unfold Django.at_least_1_2. lia.
Defined.

Lemma db_conf_cached_witness :
  Django.db_conf Django.old_install
    (Django.mkCache
       (Some (Django.mkDbConf "postgresql_psycopg2" "shop" "shop" "secret"
                "localhost" "5432"))
       (Some [1; 3]%Z)) 7 =
  (Django.Val (Django.mkDbConf "postgresql_psycopg2" "shop" "shop" "secret"
                 "localhost" "5432"),
   Django.mkCache
     (Some (Django.mkDbConf "postgresql_psycopg2" "shop" "shop" "secret"
              "localhost" "5432"))
     (Some [1; 3]%Z), 7%nat).
Proof.
  exact (db_conf_cached Django.sample_install Django.fresh _ 0 _ _ eq_refl
           Django.old_install 7).
Defined.

(** ** Declined questions in [reset_data_from] *)

Section ResetDeclined.

Variable c : Conf.
Variable w : World.

Lemma reset_data_from_copy_declined_scope self other_env cd :
  declines w (copy_question self other_env) ->
  satisfies_at cd (reset_data_from c w self other_env)
    (copy_declined_scope c w cd self other_env) (fun _ => True).
Proof.
  intros Hd.
  set (P := copy_declined_scope c w cd self other_env).
  assert (Hp : forall msg, P (EvPrint msg)) by (intros; exact I).
  assert (Hq : forall t d, P (EvPrompt t d)) by (intros; exact I).
  unfold reset_data_from.
  apply sat_at_bind with (Q1 := fun _ => True);
    [apply sat_at_yes; exact Hq|].
  intros [|] _; simpl negb; cbv iota;
    [|apply sat_at_of_sat, sat_print, Hp].
  apply sat_at_bind with (Q1 := fun _ => True).
  { apply sat_at_clear_cache; [exact Hp|]. left. split; auto. }
  intros _ _.
  eapply sat_at_bind.
  { apply sat_at_backup_database. right. split; reflexivity. }
  intros db (h0 & r & Hr & Hacc & ->).
  apply sat_at_bind with (Q1 := fun _ => True).
  { apply sat_at_method. left. split; auto. }
  intros _ _.
  apply sat_at_bind with (Q1 := fun _ => True).
  { apply sat_at_method. left. split; [reflexivity|].
    right. right. exists h0, r.
    split; [exact Hr | split; [exact Hacc | reflexivity]]. }
  intros _ _.
  apply sat_at_bind with (Q1 := fun b => b = false).
  { apply sat_at_of_sat, sat_yes_declined; [apply Hq | exact Hd]. }
  intros b ->. simpl negb. cbv iota. apply sat_at_of_sat, sat_print, Hp.
Qed.

(** C1. For every pair of environments.  When the operator declines the
    first question (reset the database), [reset_data_from] asks that one
    question, prints that nothing is reset and returns: no command of any
    kind is issued (no cache clear, backup, database clear, database load
    or upload-directory command).  When the operator declines the second
    question (copy the media files), then in every run the only remote
    commands are the cache clear, the database clear and the load of an
    accepted backup in the environment's own project directory and the
    backup in the other environment's project directory, every one a
    [manage.py] command and none of them the rename, copy or delete of
    the upload directory; nothing is run locally.  With every command
    returning and the backup accepted, the run ends normally right after
    the second question with the message that no media files are
    copied. *)
Theorem reset_data_from_declined (self other_env : ProjectEnvironment)
    (cd : list string) (h : list Event) :
  (prompt_input w h (reset_question self other_env ++ " (y/n)") <> "y" ->
   reset_data_from c w self other_env cd h =
     (Ok tt, [EvPrompt (reset_question self other_env ++ " (y/n)") "n";
              EvPrint "Not resetting database content."]) /\
   remote (snd (reset_data_from c w self other_env cd h)) = []) /\
  (declines w (copy_question self other_env) ->
   Forall (copy_declined_scope c w cd self other_env)
     (snd (reset_data_from c w self other_env cd h)) /\
   (forall d cmd,
      In (EvRun d cmd) (snd (reset_data_from c w self other_env cd h)) ->
      String.prefix "./manage.py " cmd = true /\
      ~ In cmd (uploads_swap_cmds c other_env)) /\
   (forall r,
      runs_return w ->
      backup_answers c w other_env r ->
      backup_accepted r ->
      accepts w (reset_question self other_env) ->
      reset_data_from c w self other_env cd h =
      (Ok tt,
       ([EvPrompt (reset_question self other_env ++ " (y/n)") "n"]
        ++ cache_events c cd self
        ++ [EvRun (cd ++ [projdir c other_env]) (db_backup_cmd c other_env);
            EvRun (cd ++ [projdir c self]) "./manage.py db_clear --noinput";
            EvRun (cd ++ [projdir c self])
              (db_load_cmd (backup_file_of (output r)));
            EvPrompt (copy_question self other_env ++ " (y/n)") "n";
            EvPrint "Not copying media files."])%list))).
Proof.
  split.
  - intros H.
    rewrite (reset_data_from_reset_declined c w self other_env cd h H).
    split; reflexivity.
  - intros Hd. split; [|split].
    + apply (reset_data_from_copy_declined_scope self other_env cd Hd h).
    + intros d cmd Hin.
      destruct (reset_data_from_manage_only c w self other_env Hd cd h)
        as [Hall _].
      rewrite Forall_forall in Hall.
      pose proof (Hall _ Hin d cmd eq_refl) as Hm.
      split; [exact Hm | apply manage_not_swap, Hm].
    + intros r Hret Hb Hacc Hyes.
      apply (reset_data_from_copy_declined c w Hret); assumption.
Qed.

End ResetDeclined.

Lemma copy_declined_world_returns : runs_return copy_declined_world.
Proof. intros h cd cmd. discriminate. Qed.

Lemma reset_data_from_declined_witness :
  reset_data_from shop_conf (shop_world "n") (stage_env shop_conf)
    (live_env shop_conf) [] [] =
  (Ok tt, [EvPrompt "Reset database 'stage' content from 'live'? (y/n)" "n";
           EvPrint "Not resetting database content."]) /\
  Forall (copy_declined_scope shop_conf copy_declined_world []
            (stage_env shop_conf) (live_env shop_conf))
    (snd (reset_data_from shop_conf copy_declined_world
            (stage_env shop_conf) (live_env shop_conf) [] [])) /\
  reset_data_from shop_conf copy_declined_world (stage_env shop_conf)
    (live_env shop_conf) [] [] =
  (Ok tt,
   [EvPrompt "Reset database 'stage' content from 'live'? (y/n)" "n";
    EvPrint "Clearing cache";
    EvRun ["/srv/shop/stage/src/shop"] "./manage.py cache_clear shop.Item";
    EvRun ["/srv/shop/live/src/shop"]
      "./manage.py db_backup /srv/shop/live/backups/db_backup_shop_live";
    EvRun ["/srv/shop/stage/src/shop"] "./manage.py db_clear --noinput";
    EvRun ["/srv/shop/stage/src/shop"]
      "./manage.py db_load --noinput /srv/shop/live/backups/db.sql";
    EvPrompt "Copy media files from 'stage' to 'live'? (y/n)" "n";
    EvPrint "Not copying media files."]).
Proof.
  assert (Hd : declines copy_declined_world
                 (copy_question (stage_env shop_conf) (live_env shop_conf)))
    by (intros h; vm_compute; discriminate).
  split; [|split].
  - refine (proj1 (proj1 (reset_data_from_declined shop_conf (shop_world "n")
              (stage_env shop_conf) (live_env shop_conf) [] []) _)).
    vm_compute. discriminate.
  - exact (proj1 (proj2 (reset_data_from_declined shop_conf
              copy_declined_world (stage_env shop_conf) (live_env shop_conf)
              [] []) Hd)).
  - exact (proj2 (proj2 (proj2 (reset_data_from_declined shop_conf
              copy_declined_world (stage_env shop_conf) (live_env shop_conf)
              [] []) Hd)) shop_backup_reply copy_declined_world_returns
              (fun _ _ => eq_refl) shop_backup_accepted (fun _ => eq_refl)).
Defined.
